(** * glance.registry: the registry client facade

    A shallow embedding of [glance/registry/__init__.py]: the module-level
    cache ([_CLIENT_CREDS], [_CLIENT_HOST], [_CLIENT_PORT], [_CLIENT_KWARGS],
    [_METADATA_ENCRYPTION_KEY]), the two configuration entry points
    ([configure_registry_client], [configure_registry_admin_creds]), the
    client factory ([get_registry_client]) and the eleven delegation
    functions.

    Python dictionaries are objects: the module keeps references to them and
    [get_registry_client] hands one of them on to the client it builds.  The
    embedding therefore has an object store for dictionaries, and globals
    and keyword arguments hold references into it. *)

From Stdlib Require Import ZArith String Ascii.
From stdpp Require Import base option list gmap strings.

Local Open Scope string_scope.
Local Open Scope list_scope.

(** ** Python values *)

(** A dictionary object is identified by its position in the store. *)
Definition loc := nat.

Inductive pyval :=
| PNone
| PBool (b : bool)
| PInt (z : Z)
| PStr (s : string)
| PRef (l : loc).

(** The contents of a dictionary object with string keys. *)
Abbreviation pydict := (gmap string pyval).

(** A [StrOpt] without a default reads as a string or as [None]. *)
Definition of_optional (o : option string) : pyval :=
  match o with
  | Some s => PStr s
  | None => PNone
  end.

(** [str.lower()] on the characters that matter for a comparison with an
    ASCII literal: the letters A-Z go to a-z and every other character is
    kept. *)
Definition ascii_lower (c : ascii) : ascii :=
  let n := nat_of_ascii c in
  if (65 <=? n)%nat && (n <=? 90)%nat then ascii_of_nat (n + 32) else c.

Fixpoint lower (s : string) : string :=
  match s with
  | EmptyString => EmptyString
  | String c r => String (ascii_lower c) (lower r)
  end.

(** Truth value of an optional string, as [if x:] and [x or y] test it:
    [None] and the empty string are false. *)
Definition str_truthy (o : option string) : bool :=
  match o with
  | Some s => negb (String.eqb s "")
  | None => false
  end.

(** ** Exceptions and the state-and-exception monad *)

(** What reading an option from [CONF] can raise: the two exceptions the
    module handles, and any other. *)
Inductive read_error :=
| ConfigFileValueError
| IndexError
| OtherReadError (name : string).

Inductive exn :=
| ReadError (e : read_error)
| BadRegistryConnectionConfiguration (msg : string)
| SystemError
| WireError (name : string).

Inductive outcome (A : Type) :=
| Return (a : A)
| Raise (e : exn).
Arguments Return {A} a.
Arguments Raise {A} e.

Definition M (S A : Type) : Type := S -> outcome A * S.

Definition ret {S A} (a : A) : M S A := fun s => (Return a, s).

Definition bind {S A B} (m : M S A) (k : A -> M S B) : M S B :=
  fun s =>
    match m s with
    | (Return a, s') => k a s'
    | (Raise e, s') => (Raise e, s')
    end.

Definition raise {S A} (e : exn) : M S A := fun s => (Raise e, s).

(** [try: body except ...]: the handler says which exceptions it catches
    ([None]: not caught, the exception goes on). *)
Definition try_except {S A} (body : M S A) (handler : exn -> option (M S A))
  : M S A :=
  fun s =>
    match body s with
    | (Return a, s') => (Return a, s')
    | (Raise e, s') =>
        match handler e with
        | Some h => h s'
        | None => (Raise e, s')
        end
    end.

Definition gets {S A} (f : S -> A) : M S A := fun s => (Return (f s), s).
Definition modify {S} (f : S -> S) : M S unit := fun s => (Return tt, f s).

Declare Scope py_scope.
Delimit Scope py_scope with py.
Notation "x <- c ;; k" := (bind c (fun x => k))
  (at level 100, c at next level, right associativity) : py_scope.
Notation "c ;;; k" := (bind c (fun _ => k))
  (at level 100, right associativity) : py_scope.
Local Open Scope py_scope.

(** ** Configuration and environment *)

(** Reading an option from [CONF] either gives its value or raises.  The
    source guards the reads of [registry_host] and [registry_port]; the
    other typed options ([IntOpt], [BoolOpt]) go through the same
    conversion.  String options outside the guarded block read as the stored
    string, or [None] when they have no default and are not set. *)
Inductive cfg_read (A : Type) :=
| Value (a : A)
| Fails (e : read_error).
Arguments Value {A} a.
Arguments Fails {A} e.

Record ConfigOpts := {
  (* registry_addr_opts *)
  registry_host : cfg_read string;
  registry_port : cfg_read Z;
  (* registry_client_opts *)
  registry_client_protocol : string;
  registry_client_key_file : option string;
  registry_client_cert_file : option string;
  registry_client_ca_file : option string;
  registry_client_insecure : cfg_read bool;
  registry_client_timeout : cfg_read Z;
  (* registry_client_ctx_opts *)
  admin_user : option string;
  admin_password : option string;
  admin_tenant_name : option string;
  auth_url : option string;
  auth_strategy : string;
  auth_region : option string;
  (* imported from glance.common.config *)
  metadata_encryption_key : option string;
}.

(** [os.environ] and [os.getenv]. *)
Abbreviation environ := (gmap string string).

Definition getenv (env : environ) (name : string) : option string :=
  env !! name.

(** ** Module state *)

Inductive log_level := DEBUG | ERROR.

Record log_record := {
  level : log_level;
  message : string;
  args : list pyval;
}.

Record state := {
  _CLIENT_CREDS : pyval;
  _CLIENT_HOST : pyval;
  _CLIENT_PORT : pyval;
  _CLIENT_KWARGS : loc;
  _METADATA_ENCRYPTION_KEY : pyval;
  (* dictionary objects, by reference *)
  heap : list pydict;
  (* what LOG has received *)
  log : list log_record;
}.

(** The module right after import: [_CLIENT_KWARGS = {}], the rest [None]. *)
Definition initial_state : state := {|
  _CLIENT_CREDS := PNone;
  _CLIENT_HOST := PNone;
  _CLIENT_PORT := PNone;
  _CLIENT_KWARGS := 0;
  _METADATA_ENCRYPTION_KEY := PNone;
  heap := [∅];
  log := [];
|}.

Definition set_CLIENT_CREDS (v : pyval) (s : state) : state :=
  {| _CLIENT_CREDS := v; _CLIENT_HOST := _CLIENT_HOST s;
     _CLIENT_PORT := _CLIENT_PORT s; _CLIENT_KWARGS := _CLIENT_KWARGS s;
     _METADATA_ENCRYPTION_KEY := _METADATA_ENCRYPTION_KEY s;
     heap := heap s; log := log s |}.

Definition set_CLIENT_HOST (v : pyval) (s : state) : state :=
  {| _CLIENT_CREDS := _CLIENT_CREDS s; _CLIENT_HOST := v;
     _CLIENT_PORT := _CLIENT_PORT s; _CLIENT_KWARGS := _CLIENT_KWARGS s;
     _METADATA_ENCRYPTION_KEY := _METADATA_ENCRYPTION_KEY s;
     heap := heap s; log := log s |}.

Definition set_CLIENT_PORT (v : pyval) (s : state) : state :=
  {| _CLIENT_CREDS := _CLIENT_CREDS s; _CLIENT_HOST := _CLIENT_HOST s;
     _CLIENT_PORT := v; _CLIENT_KWARGS := _CLIENT_KWARGS s;
     _METADATA_ENCRYPTION_KEY := _METADATA_ENCRYPTION_KEY s;
     heap := heap s; log := log s |}.

Definition set_CLIENT_KWARGS (l : loc) (s : state) : state :=
  {| _CLIENT_CREDS := _CLIENT_CREDS s; _CLIENT_HOST := _CLIENT_HOST s;
     _CLIENT_PORT := _CLIENT_PORT s; _CLIENT_KWARGS := l;
     _METADATA_ENCRYPTION_KEY := _METADATA_ENCRYPTION_KEY s;
     heap := heap s; log := log s |}.

Definition set_METADATA_ENCRYPTION_KEY (v : pyval) (s : state) : state :=
  {| _CLIENT_CREDS := _CLIENT_CREDS s; _CLIENT_HOST := _CLIENT_HOST s;
     _CLIENT_PORT := _CLIENT_PORT s; _CLIENT_KWARGS := _CLIENT_KWARGS s;
     _METADATA_ENCRYPTION_KEY := v;
     heap := heap s; log := log s |}.

Definition set_heap (h : list pydict) (s : state) : state :=
  {| _CLIENT_CREDS := _CLIENT_CREDS s; _CLIENT_HOST := _CLIENT_HOST s;
     _CLIENT_PORT := _CLIENT_PORT s; _CLIENT_KWARGS := _CLIENT_KWARGS s;
     _METADATA_ENCRYPTION_KEY := _METADATA_ENCRYPTION_KEY s;
     heap := h; log := log s |}.

Definition set_log (l : list log_record) (s : state) : state :=
  {| _CLIENT_CREDS := _CLIENT_CREDS s; _CLIENT_HOST := _CLIENT_HOST s;
     _CLIENT_PORT := _CLIENT_PORT s; _CLIENT_KWARGS := _CLIENT_KWARGS s;
     _METADATA_ENCRYPTION_KEY := _METADATA_ENCRYPTION_KEY s;
     heap := heap s; log := l |}.

(** ** Primitive statements *)

(** [CONF.<option>] *)
Definition conf_get {A} (r : cfg_read A) : M state A :=
  match r with
  | Value a => ret a
  | Fails e => raise (ReadError e)
  end.

(** [LOG.error(msg)] and [LOG.debug(msg, *args)] *)
Definition LOG_error (msg : string) : M state unit :=
  modify (fun s =>
    set_log (log s ++ [{| level := ERROR; message := msg; args := [] |}]) s).

Definition LOG_debug (msg : string) (a : list pyval) : M state unit :=
  modify (fun s =>
    set_log (log s ++ [{| level := DEBUG; message := msg; args := a |}]) s).

(** A dictionary display [{...}]: a new object. *)
Definition new_dict (d : pydict) : M state loc :=
  fun s => (Return (length (heap s)), set_heap (heap s ++ [d]) s).

(** Reading the object behind a reference.  A name in a running program
    always refers to a live object; a reference outside the store is an
    inconsistency of the interpreter. *)
Definition deref (l : loc) : M state pydict :=
  fun s =>
    match heap s !! l with
    | Some d => (Return d, s)
    | None => (Raise SystemError, s)
    end.

(** [d.copy()]: a new object with the same items. *)
Definition dict_copy (l : loc) : M state loc :=
  d <- deref l ;; new_dict d.

(** [d[k] = v]: the object is updated in place. *)
Definition dict_setitem (l : loc) (k : string) (v : pyval) : M state unit :=
  d <- deref l ;;
  modify (fun s => set_heap (<[l := <[k := v]> d]> (heap s)) s).

(** Truth value of an object, as [if x:] tests it. *)
Definition truthy (v : pyval) : M state bool :=
  match v with
  | PNone => ret false
  | PBool b => ret b
  | PInt z => ret (negb (z =? 0)%Z)
  | PStr s => ret (negb (String.eqb s ""))
  | PRef l => d <- deref l ;; ret (negb (bool_decide (d = ∅)))
  end.

(** ** The request context *)

(** The per-request identity.  The module reads one attribute of it. *)
Record RequestContext := {
  auth_tok : pyval;
}.

(** ** The wire client (glance.registry.client) *)

Module client.

(** Modelled from the spec: the class [RegistryClient] of
    glance.registry.client, which the facade constructs and calls.  The
    spec describes it as a constructible capability taking host, port and
    encryption key plus the transport, credential and token parameters;
    the handle is the record of what the constructor received, the keyword
    arguments by name. *)
Record RegistryClient := {
  host : pyval;
  port : pyval;
  metadata_encryption_key : pyval;
  kwargs : pydict;
}.

(** The eleven operations the facade calls on a handle, each with the
    arguments of the call. *)
Inductive method_call :=
| get_images (filters : pydict)
| get_images_detailed (filters : pydict)
| get_image (image_id : pyval)
| add_image (image_meta : pyval)
| update_image (image_id image_meta purge_props : pyval)
| delete_image (image_id : pyval)
| get_image_members (image_id : pyval)
| get_member_images (member_id : pyval)
| replace_members (image_id member_data : pyval)
| add_member (image_id member_id can_share : pyval)
| delete_member (image_id member_id : pyval).

End client.

(** What a method of the wire client does is outside this module: it is an
    interface, given the handle, the call and the state of the registry
    service, and it returns a result or raises.  It has no access to the
    facade's cache. *)
Class WireClient (W R : Type) :=
  wire_exec : client.RegistryClient -> client.method_call -> W -> outcome R * W.

(** A session is the module state together with the registry service and
    the sequence of calls the wire client has received. *)
Record session (W : Type) := {
  module : state;
  wire : W;
  calls : list (client.RegistryClient * client.method_call);
}.
Arguments module {W} _.
Arguments wire {W} _.
Arguments calls {W} _.

(** A statement of the module, run in a session. *)
Definition in_module {W A} (m : M state A) : M (session W) A :=
  fun ss =>
    let (r, s') := m (module ss) in
    (r, {| module := s'; wire := wire ss; calls := calls ss |}).

(** [c.method(args)] *)
Definition invoke `{WireClient W R} (c : client.RegistryClient)
    (call : client.method_call) : M (session W) R :=
  fun ss =>
    let (r, w') := wire_exec c call (wire ss) in
    (r, {| module := module ss; wire := w';
           calls := calls ss ++ [(c, call)] |}).

(** ** The module's functions *)

Definition configure_registry_client (CONF : ConfigOpts) : M state unit :=
  hp <- try_except
          (host <- conf_get (registry_host CONF) ;;
           port <- conf_get (registry_port CONF) ;;
           ret (host, port))
          (fun e =>
             match e with
             | ReadError ConfigFileValueError =>
                 Some (let msg := "Configuration option was not valid" in
                       LOG_error msg ;;;
                       raise (BadRegistryConnectionConfiguration msg))
             | ReadError IndexError =>
                 Some (let msg :=
                         "Could not find required configuration option" in
                       LOG_error msg ;;;
                       raise (BadRegistryConnectionConfiguration msg))
             | _ => None
             end) ;;
  modify (set_CLIENT_HOST (PStr hp.1)) ;;;
  modify (set_CLIENT_PORT (PInt hp.2)) ;;;
  modify (set_METADATA_ENCRYPTION_KEY
            (of_optional (metadata_encryption_key CONF))) ;;;
  let use_ssl := String.eqb (lower (registry_client_protocol CONF)) "https" in
  let key_file := registry_client_key_file CONF in
  let cert_file := registry_client_cert_file CONF in
  let ca_file := registry_client_ca_file CONF in
  insecure <- conf_get (registry_client_insecure CONF) ;;
  timeout <- conf_get (registry_client_timeout CONF) ;;
  d <- new_dict (<["use_ssl" := PBool use_ssl]>
                (<["key_file" := of_optional key_file]>
                (<["cert_file" := of_optional cert_file]>
                (<["ca_file" := of_optional ca_file]>
                (<["insecure" := PBool insecure]>
                (<["timeout" := PInt timeout]> ∅)))))) ;;
  modify (set_CLIENT_KWARGS d).

Definition configure_registry_admin_creds (CONF : ConfigOpts) (env : environ)
  : M state unit :=
  let strategy :=
    if str_truthy (auth_url CONF) || str_truthy (getenv env "OS_AUTH_URL")
    then "keystone"
    else auth_strategy CONF in
  d <- new_dict (<["user" := of_optional (admin_user CONF)]>
                (<["password" := of_optional (admin_password CONF)]>
                (<["username" := of_optional (admin_user CONF)]>
                (<["tenant" := of_optional (admin_tenant_name CONF)]>
                (<["auth_url" := of_optional (auth_url CONF)]>
                (<["strategy" := PStr strategy]>
                (<["region" := of_optional (auth_region CONF)]> ∅))))))) ;;
  modify (set_CLIENT_CREDS (PRef d)).

Definition get_registry_client (cxt : RequestContext)
  : M state client.RegistryClient :=
  cached <- gets _CLIENT_KWARGS ;;
  kwargs <- dict_copy cached ;;
  dict_setitem kwargs "auth_tok" (auth_tok cxt) ;;;
  creds <- gets _CLIENT_CREDS ;;
  attach <- truthy creds ;;
  (if attach then dict_setitem kwargs "creds" creds else ret tt) ;;;
  h <- gets _CLIENT_HOST ;;
  p <- gets _CLIENT_PORT ;;
  k <- gets _METADATA_ENCRYPTION_KEY ;;
  kw <- deref kwargs ;;
  ret {| client.host := h; client.port := p;
         client.metadata_encryption_key := k; client.kwargs := kw |}.

Section Delegation.

Context `{WireClient W R}.

Definition get_images_list (context : RequestContext) (kwargs : pydict)
  : M (session W) R :=
  c <- in_module (get_registry_client context) ;;
  invoke c (client.get_images kwargs).

Definition get_images_detail (context : RequestContext) (kwargs : pydict)
  : M (session W) R :=
  c <- in_module (get_registry_client context) ;;
  invoke c (client.get_images_detailed kwargs).

Definition get_image_metadata (context : RequestContext) (image_id : pyval)
  : M (session W) R :=
  c <- in_module (get_registry_client context) ;;
  invoke c (client.get_image image_id).

Definition add_image_metadata (context : RequestContext)
    (image_meta : pyval) : M (session W) R :=
  in_module (LOG_debug "Adding image metadata..." []) ;;;
  c <- in_module (get_registry_client context) ;;
  invoke c (client.add_image image_meta).

(** [purge_props] is [False] when the caller leaves it out. *)
Definition update_image_metadata (context : RequestContext)
    (image_id image_meta purge_props : pyval) : M (session W) R :=
  in_module (LOG_debug "Updating image metadata for image %s..."
               [image_id]) ;;;
  c <- in_module (get_registry_client context) ;;
  invoke c (client.update_image image_id image_meta purge_props).

Definition delete_image_metadata (context : RequestContext)
    (image_id : pyval) : M (session W) R :=
  in_module (LOG_debug "Deleting image metadata for image %s..."
               [image_id]) ;;;
  c <- in_module (get_registry_client context) ;;
  invoke c (client.delete_image image_id).

Definition get_image_members (context : RequestContext) (image_id : pyval)
  : M (session W) R :=
  c <- in_module (get_registry_client context) ;;
  invoke c (client.get_image_members image_id).

Definition get_member_images (context : RequestContext) (member_id : pyval)
  : M (session W) R :=
  c <- in_module (get_registry_client context) ;;
  invoke c (client.get_member_images member_id).

Definition replace_members (context : RequestContext)
    (image_id member_data : pyval) : M (session W) R :=
  c <- in_module (get_registry_client context) ;;
  invoke c (client.replace_members image_id member_data).

(** [can_share] is [None] when the caller leaves it out; it is passed on
    by keyword. *)
Definition add_member (context : RequestContext)
    (image_id member_id can_share : pyval) : M (session W) R :=
  c <- in_module (get_registry_client context) ;;
  invoke c (client.add_member image_id member_id can_share).

Definition delete_member (context : RequestContext)
    (image_id member_id : pyval) : M (session W) R :=
  c <- in_module (get_registry_client context) ;;
  invoke c (client.delete_member image_id member_id).

End Delegation.

(** ** Histories of calls *)

(** The calls a process can make on the module, with what each one reads
    from outside at the time of the call ([CONF], the environment, the
    request context and the arguments). *)
Inductive api_call :=
| call_configure_registry_client (CONF : ConfigOpts)
| call_configure_registry_admin_creds (CONF : ConfigOpts) (env : environ)
| call_get_registry_client (cxt : RequestContext)
| call_get_images_list (context : RequestContext) (kwargs : pydict)
| call_get_images_detail (context : RequestContext) (kwargs : pydict)
| call_get_image_metadata (context : RequestContext) (image_id : pyval)
| call_add_image_metadata (context : RequestContext) (image_meta : pyval)
| call_update_image_metadata (context : RequestContext)
    (image_id image_meta purge_props : pyval)
| call_delete_image_metadata (context : RequestContext) (image_id : pyval)
| call_get_image_members (context : RequestContext) (image_id : pyval)
| call_get_member_images (context : RequestContext) (member_id : pyval)
| call_replace_members (context : RequestContext)
    (image_id member_data : pyval)
| call_add_member (context : RequestContext)
    (image_id member_id can_share : pyval)
| call_delete_member (context : RequestContext) (image_id member_id : pyval).

Definition is_configure_creds (c : api_call) : bool :=
  match c with
  | call_configure_registry_admin_creds _ _ => true
  | _ => false
  end.

Section History.

Context `{WireClient W R}.

(** The session after a call, whether it returned or raised. *)
Definition run_call (c : api_call) (ss : session W) : session W :=
  match c with
  | call_configure_registry_client CONF =>
      (in_module (configure_registry_client CONF) ss).2
  | call_configure_registry_admin_creds CONF env =>
      (in_module (configure_registry_admin_creds CONF env) ss).2
  | call_get_registry_client cxt =>
      (in_module (get_registry_client cxt) ss).2
  | call_get_images_list c k => (get_images_list c k ss).2
  | call_get_images_detail c k => (get_images_detail c k ss).2
  | call_get_image_metadata c i => (get_image_metadata c i ss).2
  | call_add_image_metadata c m => (add_image_metadata c m ss).2
  | call_update_image_metadata c i m p =>
      (update_image_metadata c i m p ss).2
  | call_delete_image_metadata c i => (delete_image_metadata c i ss).2
  | call_get_image_members c i => (get_image_members c i ss).2
  | call_get_member_images c m => (get_member_images c m ss).2
  | call_replace_members c i d => (replace_members c i d ss).2
  | call_add_member c i m s => (add_member c i m s ss).2
  | call_delete_member c i m => (delete_member c i m ss).2
  end.

Definition run_calls (cs : list api_call) (ss : session W) : session W :=
  fold_left (fun ss c => run_call c ss) cs ss.

(** A fresh process: the module as imported, no wire call made yet. *)
Definition initial_session (w : W) : session W :=
  {| module := initial_state; wire := w; calls := [] |}.

End History.

(** ** A test double for the wire client *)

(** It keeps the calls it received and answers with the number of calls
    seen before, except that looking up the image [None] is refused. *)
Definition recording_exec (c : client.RegistryClient)
    (call : client.method_call) (seen : list client.method_call)
  : outcome nat * list client.method_call :=
  match call with
  | client.get_image PNone => (Raise (WireError "NotFound"), (seen ++ [call])%list)
  | _ => (Return (length seen), (seen ++ [call])%list)
  end.

#[local] Instance recording_client
  : WireClient (list client.method_call) nat := recording_exec.

(** ** Sample inputs *)

Definition default_conf : ConfigOpts := {|
  registry_host := Value "0.0.0.0";
  registry_port := Value 9191%Z;
  registry_client_protocol := "http";
  registry_client_key_file := None;
  registry_client_cert_file := None;
  registry_client_ca_file := None;
  registry_client_insecure := Value false;
  registry_client_timeout := Value 600%Z;
  admin_user := None;
  admin_password := None;
  admin_tenant_name := None;
  auth_url := None;
  auth_strategy := "noauth";
  auth_region := None;
  metadata_encryption_key := None;
|}.

Definition with_protocol (p : string) (c : ConfigOpts) : ConfigOpts := {|
  registry_host := registry_host c;
  registry_port := registry_port c;
  registry_client_protocol := p;
  registry_client_key_file := registry_client_key_file c;
  registry_client_cert_file := registry_client_cert_file c;
  registry_client_ca_file := registry_client_ca_file c;
  registry_client_insecure := registry_client_insecure c;
  registry_client_timeout := registry_client_timeout c;
  admin_user := admin_user c;
  admin_password := admin_password c;
  admin_tenant_name := admin_tenant_name c;
  auth_url := auth_url c;
  auth_strategy := auth_strategy c;
  auth_region := auth_region c;
  metadata_encryption_key := metadata_encryption_key c;
|}.

Definition with_port (p : cfg_read Z) (c : ConfigOpts) : ConfigOpts := {|
  registry_host := registry_host c;
  registry_port := p;
  registry_client_protocol := registry_client_protocol c;
  registry_client_key_file := registry_client_key_file c;
  registry_client_cert_file := registry_client_cert_file c;
  registry_client_ca_file := registry_client_ca_file c;
  registry_client_insecure := registry_client_insecure c;
  registry_client_timeout := registry_client_timeout c;
  admin_user := admin_user c;
  admin_password := admin_password c;
  admin_tenant_name := admin_tenant_name c;
  auth_url := auth_url c;
  auth_strategy := auth_strategy c;
  auth_region := auth_region c;
  metadata_encryption_key := metadata_encryption_key c;
|}.

Definition with_timeout (t : cfg_read Z) (c : ConfigOpts) : ConfigOpts := {|
  registry_host := registry_host c;
  registry_port := registry_port c;
  registry_client_protocol := registry_client_protocol c;
  registry_client_key_file := registry_client_key_file c;
  registry_client_cert_file := registry_client_cert_file c;
  registry_client_ca_file := registry_client_ca_file c;
  registry_client_insecure := registry_client_insecure c;
  registry_client_timeout := t;
  admin_user := admin_user c;
  admin_password := admin_password c;
  admin_tenant_name := admin_tenant_name c;
  auth_url := auth_url c;
  auth_strategy := auth_strategy c;
  auth_region := auth_region c;
  metadata_encryption_key := metadata_encryption_key c;
|}.

Definition token_context : RequestContext := {| auth_tok := PStr "tok" |}.
Definition anonymous_context : RequestContext := {| auth_tok := PNone |}.

(** ** The cache along a history *)

(** What a call does to the module state.  The wire client has no part in
    it: a delegation function touches the module only through its log line
    and the factory. *)
Definition module_step (c : api_call) (s : state) : state :=
  match c with
  | call_configure_registry_client CONF => (configure_registry_client CONF s).2
  | call_configure_registry_admin_creds CONF env =>
      (configure_registry_admin_creds CONF env s).2
  | call_get_registry_client cxt
  | call_get_images_list cxt _
  | call_get_images_detail cxt _
  | call_get_image_metadata cxt _
  | call_get_image_members cxt _
  | call_get_member_images cxt _
  | call_replace_members cxt _ _
  | call_add_member cxt _ _ _
  | call_delete_member cxt _ _ => (get_registry_client cxt s).2
  | call_add_image_metadata cxt _ =>
      (get_registry_client cxt
         (LOG_debug "Adding image metadata..." [] s).2).2
  | call_update_image_metadata cxt i _ _ =>
      (get_registry_client cxt
         (LOG_debug "Updating image metadata for image %s..." [i] s).2).2
  | call_delete_image_metadata cxt i =>
      (get_registry_client cxt
         (LOG_debug "Deleting image metadata for image %s..." [i] s).2).2
  end.

Definition module_run (cs : list api_call) (s : state) : state :=
  fold_left (fun s c => module_step c s) cs s.

(** The handle the factory composes from the cache and given keyword
    arguments. *)
Definition handle_of (s : state) (kw : pydict) : client.RegistryClient :=
  {| client.host := _CLIENT_HOST s; client.port := _CLIENT_PORT s;
     client.metadata_encryption_key := _METADATA_ENCRYPTION_KEY s;
     client.kwargs := kw |}.

(** [_CLIENT_KWARGS] refers to a dictionary that has no "creds" entry. *)
Definition kwargs_cached (s : state) : Prop :=
  exists d, heap s !! _CLIENT_KWARGS s = Some d /\ d !! "creds" = None.

(** [_CLIENT_CREDS] refers to a dictionary with a string under "strategy". *)
Definition creds_cached (s : state) : Prop :=
  exists l d strategy,
    _CLIENT_CREDS s = PRef l /\ heap s !! l = Some d /\
    d !! "strategy" = Some (PStr strategy).

(** The transport part of the cache is what [configure_registry_client]
    stores for the given option values. *)
Definition transport_cached (host : string) (port : Z)
    (insecure : bool) (timeout : Z) (CONF : ConfigOpts) (s : state) : Prop :=
  _CLIENT_HOST s = PStr host /\
  _CLIENT_PORT s = PInt port /\
  _METADATA_ENCRYPTION_KEY s = of_optional (metadata_encryption_key CONF) /\
  exists d,
    heap s !! _CLIENT_KWARGS s = Some d /\
    d !! "use_ssl" =
      Some (PBool (String.eqb (lower (registry_client_protocol CONF))
                     "https")) /\
    d !! "key_file" = Some (of_optional (registry_client_key_file CONF)) /\
    d !! "cert_file" = Some (of_optional (registry_client_cert_file CONF)) /\
    d !! "ca_file" = Some (of_optional (registry_client_ca_file CONF)) /\
    d !! "insecure" = Some (PBool insecure) /\
    d !! "timeout" = Some (PInt timeout).

(** A step that leaves the transport part of the cache alone. *)
Definition keeps_transport (s s' : state) : Prop :=
  _CLIENT_HOST s' = _CLIENT_HOST s /\
  _CLIENT_PORT s' = _CLIENT_PORT s /\
  _METADATA_ENCRYPTION_KEY s' = _METADATA_ENCRYPTION_KEY s /\
  _CLIENT_KWARGS s' = _CLIENT_KWARGS s /\
  heap s `prefix_of` heap s'.

(** A step that leaves the credentials part of the cache alone. *)
Definition keeps_creds (s s' : state) : Prop :=
  _CLIENT_CREDS s' = _CLIENT_CREDS s /\ heap s `prefix_of` heap s'.

Definition is_configure_client (c : api_call) : bool :=
  match c with
  | call_configure_registry_client _ => true
  | _ => false
  end.

(** Evaluating [CONF.registry_host, CONF.registry_port] stops at the
    first read that raises. *)
Definition addr_read_fails (CONF : ConfigOpts) (e : read_error) : Prop :=
  registry_host CONF = Fails e \/
  (exists h, registry_host CONF = Value h /\ registry_port CONF = Fails e).

(** The dictionary [configure_registry_client] builds. *)
Definition client_kwargs (CONF : ConfigOpts) (insecure : bool) (timeout : Z)
  : pydict :=
  <["use_ssl" :=
      PBool (String.eqb (lower (registry_client_protocol CONF)) "https")]>
  (<["key_file" := of_optional (registry_client_key_file CONF)]>
  (<["cert_file" := of_optional (registry_client_cert_file CONF)]>
  (<["ca_file" := of_optional (registry_client_ca_file CONF)]>
  (<["insecure" := PBool insecure]>
  (<["timeout" := PInt timeout]> ∅))))).

Definition error_record (msg : string) : log_record :=
  {| level := ERROR; message := msg; args := [] |}.

Definition with_auth (url : option string) (strategy : string)
    (c : ConfigOpts) : ConfigOpts := {|
  registry_host := registry_host c;
  registry_port := registry_port c;
  registry_client_protocol := registry_client_protocol c;
  registry_client_key_file := registry_client_key_file c;
  registry_client_cert_file := registry_client_cert_file c;
  registry_client_ca_file := registry_client_ca_file c;
  registry_client_insecure := registry_client_insecure c;
  registry_client_timeout := registry_client_timeout c;
  admin_user := admin_user c;
  admin_password := admin_password c;
  admin_tenant_name := admin_tenant_name c;
  auth_url := url;
  auth_strategy := strategy;
  auth_region := auth_region c;
  metadata_encryption_key := metadata_encryption_key c;
|}.

(** The end-to-end scenario: https, no certificate check, 10.0.0.5:9292. *)
Definition secure_conf : ConfigOpts := {|
  registry_host := Value "10.0.0.5";
  registry_port := Value 9292%Z;
  registry_client_protocol := "https";
  registry_client_key_file := Some "/etc/glance/key.pem";
  registry_client_cert_file := None;
  registry_client_ca_file := None;
  registry_client_insecure := Value true;
  registry_client_timeout := Value 600%Z;
  admin_user := None;
  admin_password := None;
  admin_tenant_name := None;
  auth_url := None;
  auth_strategy := "noauth";
  auth_region := None;
  metadata_encryption_key := Some "0123456789abcdef";
|}.

(** The "strategy" entry of the cached credentials, if there is one. *)
Definition cached_strategy (s : state) : option pyval :=
  match _CLIENT_CREDS s with
  | PRef l => d ← heap s !! l; d !! "strategy"
  | _ => None
  end.

(** ** Forwarding *)

(** A run of a delegation function from session [ss] forwards [call] on
    handle [c]: its outcome is the wire client's outcome for that call, the
    registry service is as the wire client left it, the wire client
    received that one call and no other, and the module is in state [m]. *)
Definition forwards `{WireClient W R} (run : outcome R * session W)
    (ss : session W) (c : client.RegistryClient)
    (call : client.method_call) (m : state) : Prop :=
  run.1 = (wire_exec c call (wire ss)).1 /\
  wire run.2 = (wire_exec c call (wire ss)).2 /\
  calls run.2 = calls ss ++ [(c, call)] /\
  module run.2 = m.

Definition debug_record (msg : string) (a : list pyval) : log_record :=
  {| level := DEBUG; message := msg; args := a |}.

(** A process that has configured the connection, with a caller that holds
    the dictionary [{"name": "x"}] (at reference 2). *)
Definition sample_session : session (list client.method_call) :=
  {| module :=
       (new_dict {["name" := PStr "x"]}
          (module_run [call_configure_registry_client default_conf]
             initial_state)).2;
     wire := [];
     calls := [] |}.

(** The handle the factory builds in that session for [token_context]. *)
Definition sample_handle : client.RegistryClient :=
  {| client.host := PStr "0.0.0.0";
     client.port := PInt 9191;
     client.metadata_encryption_key := PNone;
     client.kwargs :=
       <["auth_tok" := PStr "tok"]> (client_kwargs default_conf false 600) |}.

(** ** The cache as a whole *)


(** [_CLIENT_KWARGS] refers to a dictionary with exactly these items. *)
Definition kwargs_are (d : pydict) (s : state) : Prop :=
  heap s !! _CLIENT_KWARGS s = Some d.

(** The keywords [configure_registry_client] puts in [_CLIENT_KWARGS]. *)
Definition transport_keys : gset string :=
  {["use_ssl"; "key_file"; "cert_file"; "ca_file"; "insecure"; "timeout"]}.


(** One of the two spellings of a letter. *)
Definition either_case (lo up a : ascii) : Prop := a = lo \/ a = up.

(** The wire call a delegation function makes; the configuration
    functions and the factory make none. *)
Definition wire_method_of (c : api_call) : option client.method_call :=
  match c with
  | call_configure_registry_client _
  | call_configure_registry_admin_creds _ _
  | call_get_registry_client _ => None
  | call_get_images_list _ k => Some (client.get_images k)
  | call_get_images_detail _ k => Some (client.get_images_detailed k)
  | call_get_image_metadata _ i => Some (client.get_image i)
  | call_add_image_metadata _ m => Some (client.add_image m)
  | call_update_image_metadata _ i m p => Some (client.update_image i m p)
  | call_delete_image_metadata _ i => Some (client.delete_image i)
  | call_get_image_members _ i => Some (client.get_image_members i)
  | call_get_member_images _ m => Some (client.get_member_images m)
  | call_replace_members _ i d => Some (client.replace_members i d)
  | call_add_member _ i m s => Some (client.add_member i m s)
  | call_delete_member _ i m => Some (client.delete_member i m)
  end.

(** The records the module writes to the log: two error messages without
    arguments, and three debug messages, with an image id as the only
    argument where the message has a placeholder. *)
Definition module_log_record (r : log_record) : Prop :=
  r = error_record "Configuration option was not valid" \/
  r = error_record "Could not find required configuration option" \/
  r = debug_record "Adding image metadata..." [] \/
  (exists image_id,
     r = debug_record "Updating image metadata for image %s..." [image_id]) \/
  (exists image_id,
     r = debug_record "Deleting image metadata for image %s..." [image_id]).

(** * Properties *)

(** ** The store *)

Lemma lookup_fresh (h : list pydict) (d : pydict) :
  (h ++ [d]) !! length h = Some d.
Proof. by rewrite lookup_app_r, Nat.sub_diag. Qed.

Lemma insert_fresh (h : list pydict) (d d' : pydict) :
  <[length h := d']> (h ++ [d]) = h ++ [d'].
Proof.
  rewrite insert_app_r_alt by lia. by rewrite Nat.sub_diag.
Qed.

Lemma lookup_extend (h : list pydict) (d x : pydict) (l : loc) :
  h !! l = Some x -> (h ++ [d]) !! l = Some x.
Proof. intros Hl. by apply lookup_app_l_Some. Qed.

Lemma prefix_extend (h : list pydict) (d : pydict) : h `prefix_of` h ++ [d].
Proof. by exists [d]. Qed.

Create HintDb store.
#[local] Hint Resolve prefix_extend lookup_fresh lookup_extend : store.

(** Reads and writes at the object allocated last. *)
Ltac fresh_steps :=
  repeat (simpl; first [rewrite insert_fresh | rewrite lookup_fresh]);
  simpl; eauto.

(** ** The factory, case by case *)

Lemma get_registry_client_dangling cxt s :
  heap s !! _CLIENT_KWARGS s = None ->
  get_registry_client cxt s = (Raise SystemError, s).
Proof.
  intros Hkw.
  unfold get_registry_client, bind, gets, dict_copy, bind, deref; simpl.
  by rewrite Hkw.
Qed.

Lemma get_registry_client_unresolved cxt s d :
  heap s !! _CLIENT_KWARGS s = Some d ->
  _CLIENT_CREDS s = PNone ->
  get_registry_client cxt s =
    (Return (handle_of s (<["auth_tok" := auth_tok cxt]> d)),
     set_heap (heap s ++ [<["auth_tok" := auth_tok cxt]> d]) s).
Proof.
  intros Hkw Hcreds.
  unfold get_registry_client, bind, gets, dict_copy, dict_setitem, bind,
    deref, new_dict, modify; simpl.
  rewrite Hkw; simpl. rewrite lookup_fresh; simpl.
  rewrite insert_fresh, Hcreds; simpl.
  rewrite lookup_fresh. reflexivity.
Qed.

Lemma get_registry_client_resolved cxt s d l c :
  heap s !! _CLIENT_KWARGS s = Some d ->
  _CLIENT_CREDS s = PRef l ->
  heap s !! l = Some c ->
  c ≠ ∅ ->
  let kw := <["creds" := PRef l]> (<["auth_tok" := auth_tok cxt]> d) in
  get_registry_client cxt s =
    (Return (handle_of s kw), set_heap (heap s ++ [kw]) s).
Proof.
  intros Hkw Hcreds Hl Hne kw.
  unfold get_registry_client, bind, gets, dict_copy, dict_setitem, bind,
    deref, new_dict, modify; simpl.
  rewrite Hkw; simpl. rewrite lookup_fresh; simpl.
  rewrite insert_fresh, Hcreds; simpl.
  unfold bind, deref; simpl.
  rewrite (lookup_extend _ _ _ _ Hl); simpl.
  rewrite bool_decide_eq_false_2 by done; simpl.
  rewrite lookup_fresh; simpl. rewrite insert_fresh; simpl.
  rewrite lookup_fresh. reflexivity.
Qed.

(** In every state, the factory either leaves the state as it is or adds
    one object to the store. *)
Lemma get_registry_client_state cxt s :
  (get_registry_client cxt s).2 = s \/
  exists kw, (get_registry_client cxt s).2 = set_heap (heap s ++ [kw]) s.
Proof.
  destruct (heap s !! _CLIENT_KWARGS s) as [d|] eqn:Hkw;
    [|left; by rewrite get_registry_client_dangling].
  right.
  unfold get_registry_client, bind, gets, dict_copy, dict_setitem, bind,
    deref, new_dict, modify; simpl.
  rewrite Hkw; simpl. rewrite lookup_fresh; simpl. rewrite insert_fresh.
  destruct (_CLIENT_CREDS s) as [|b|z|str|l]; simpl.
  - fresh_steps.
  - destruct b; fresh_steps.
  - destruct (negb (z =? 0)%Z); fresh_steps.
  - destruct (negb (str =? "")%string); fresh_steps.
  - unfold bind, deref; simpl.
    destruct ((heap s ++ [<["auth_tok":=auth_tok cxt]> d]) !! l) as [c|];
      simpl; eauto.
    destruct (negb (bool_decide (c = ∅))); fresh_steps.
Qed.

(** ** Steps that keep a part of the cache *)

Lemma keeps_transport_refl s : keeps_transport s s.
Proof. by repeat split. Qed.

Lemma keeps_creds_refl s : keeps_creds s s.
Proof. by split. Qed.

Lemma keeps_transport_trans s1 s2 s3 :
  keeps_transport s1 s2 -> keeps_transport s2 s3 -> keeps_transport s1 s3.
Proof.
  intros (?&?&?&?&?) (?&?&?&?&?).
  repeat split; try congruence. by etrans.
Qed.

Lemma keeps_creds_trans s1 s2 s3 :
  keeps_creds s1 s2 -> keeps_creds s2 s3 -> keeps_creds s1 s3.
Proof. intros [??] [??]. split; [congruence | by etrans]. Qed.

Lemma kwargs_cached_kept s s' :
  keeps_transport s s' -> kwargs_cached s -> kwargs_cached s'.
Proof.
  intros (_&_&_&Hkw&Hpre) (d&Hd&Hc). exists d. split; [|done].
  rewrite Hkw. by eapply prefix_lookup_Some.
Qed.

Lemma transport_cached_kept host port insecure timeout CONF s s' :
  keeps_transport s s' ->
  transport_cached host port insecure timeout CONF s ->
  transport_cached host port insecure timeout CONF s'.
Proof.
  intros (Hh&Hp&Hk&Hkw&Hpre) (?&?&?&d&Hd&Hrest).
  repeat split; try congruence.
  exists d. split; [|done]. rewrite Hkw. by eapply prefix_lookup_Some.
Qed.

Lemma creds_cached_kept s s' :
  keeps_creds s s' -> creds_cached s -> creds_cached s'.
Proof.
  intros [Hc Hpre] (l&d&st&?&Hd&?). exists l, d, st.
  repeat split; [congruence | by eapply prefix_lookup_Some | done].
Qed.

Lemma set_log_keeps r s :
  keeps_transport s (set_log r s) /\ keeps_creds s (set_log r s).
Proof. by repeat split. Qed.

Lemma get_registry_client_keeps cxt s :
  let s' := (get_registry_client cxt s).2 in
  keeps_transport s s' /\ keeps_creds s s' /\ log s' = log s.
Proof.
  destruct (get_registry_client_state cxt s) as [-> | [kw ->]]; simpl.
  - by repeat split.
  - repeat split; simpl; auto with store.
Qed.

Lemma configure_registry_admin_creds_run CONF env s :
  configure_registry_admin_creds CONF env s =
    (Return tt,
     set_CLIENT_CREDS (PRef (length (heap s)))
       (set_heap
          (heap s ++
           [<["user" := of_optional (admin_user CONF)]>
           (<["password" := of_optional (admin_password CONF)]>
           (<["username" := of_optional (admin_user CONF)]>
           (<["tenant" := of_optional (admin_tenant_name CONF)]>
           (<["auth_url" := of_optional (auth_url CONF)]>
           (<["strategy" :=
                PStr (if str_truthy (auth_url CONF)
                         || str_truthy (getenv env "OS_AUTH_URL")
                      then "keystone" else auth_strategy CONF)]>
           (<["region" := of_optional (auth_region CONF)]> ∅))))))]) s)).
Proof. reflexivity. Qed.

Lemma configure_registry_admin_creds_keeps CONF env s :
  keeps_transport s (configure_registry_admin_creds CONF env s).2.
Proof.
  rewrite configure_registry_admin_creds_run; simpl.
  repeat split; simpl; auto with store.
Qed.

Lemma configure_registry_admin_creds_cached CONF env s :
  creds_cached (configure_registry_admin_creds CONF env s).2.
Proof.
  rewrite configure_registry_admin_creds_run; simpl.
  eexists _, _, _. simpl. split; [done|]. split; [apply lookup_fresh|].
  by simplify_map_eq.
Qed.

(** ** Connection setup, case by case *)

Lemma configure_registry_client_ok CONF s h p i t :
  registry_host CONF = Value h ->
  registry_port CONF = Value p ->
  registry_client_insecure CONF = Value i ->
  registry_client_timeout CONF = Value t ->
  configure_registry_client CONF s =
    (Return tt,
     set_CLIENT_KWARGS (length (heap s))
       (set_heap (heap s ++ [client_kwargs CONF i t])
          (set_METADATA_ENCRYPTION_KEY
             (of_optional (metadata_encryption_key CONF))
             (set_CLIENT_PORT (PInt p) (set_CLIENT_HOST (PStr h) s))))).
Proof.
  intros Hh Hp Hi Ht.
  unfold configure_registry_client, bind, try_except, conf_get, bind.
  rewrite Hh, Hp, Hi, Ht. reflexivity.
Qed.

Lemma configure_registry_client_bad CONF s e :
  addr_read_fails CONF e ->
  e = ConfigFileValueError \/ e = IndexError ->
  exists msg,
    configure_registry_client CONF s =
      (Raise (BadRegistryConnectionConfiguration msg),
       set_log (log s ++ [error_record msg]) s).
Proof.
  intros [Hh | (h & Hh & Hp)] [-> | ->];
    unfold configure_registry_client, bind, try_except, conf_get, bind;
    rewrite Hh, ?Hp; simpl; eauto.
Qed.

(** Whatever the reads give, connection setup ends in one of four ways. *)
Lemma configure_registry_client_cases CONF s :
  let r := configure_registry_client CONF s in
  (exists h p i t,
     registry_host CONF = Value h /\ registry_port CONF = Value p /\
     registry_client_insecure CONF = Value i /\
     registry_client_timeout CONF = Value t /\
     r = (Return tt,
          set_CLIENT_KWARGS (length (heap s))
            (set_heap (heap s ++ [client_kwargs CONF i t])
               (set_METADATA_ENCRYPTION_KEY
                  (of_optional (metadata_encryption_key CONF))
                  (set_CLIENT_PORT (PInt p) (set_CLIENT_HOST (PStr h) s))))))
  \/ (exists msg,
        r = (Raise (BadRegistryConnectionConfiguration msg),
             set_log (log s ++ [error_record msg]) s))
  \/ (exists e, r = (Raise (ReadError e), s))
  \/ (exists e h p,
        r = (Raise (ReadError e),
             set_METADATA_ENCRYPTION_KEY
               (of_optional (metadata_encryption_key CONF))
               (set_CLIENT_PORT (PInt p) (set_CLIENT_HOST (PStr h) s)))).
Proof.
  intros r. subst r.
  unfold configure_registry_client, bind, try_except, conf_get, bind.
  destruct (registry_host CONF) as [h|[| |n]] eqn:Hh; simpl;
    [|right; left; eauto|right; left; eauto|right; right; left; eauto].
  destruct (registry_port CONF) as [p|[| |n]] eqn:Hp; simpl;
    [|right; left; eauto|right; left; eauto|right; right; left; eauto].
  destruct (registry_client_insecure CONF) as [i|e] eqn:Hi; simpl;
    [|right; right; right; eauto].
  destruct (registry_client_timeout CONF) as [t|e] eqn:Ht; simpl;
    [|right; right; right; eauto].
  left. by exists h, p, i, t.
Qed.

Lemma client_kwargs_no_creds CONF i t : client_kwargs CONF i t !! "creds" = None.
Proof. unfold client_kwargs. by simplify_map_eq. Qed.

Lemma configure_registry_client_keeps CONF s :
  keeps_creds s (configure_registry_client CONF s).2.
Proof.
  destruct (configure_registry_client_cases CONF s)
    as [(h&p&i&t&_&_&_&_&->) | [[msg ->] | [[e ->] | (e&h&p&->)]]];
    split; simpl; auto with store.
Qed.

Lemma configure_registry_client_kwargs_cached CONF s :
  kwargs_cached s -> kwargs_cached (configure_registry_client CONF s).2.
Proof.
  intros (d & Hd & Hc).
  destruct (configure_registry_client_cases CONF s)
    as [(h&p&i&t&_&_&_&_&->) | [[msg ->] | [[e ->] | (e&h&p&->)]]]; simpl.
  - exists (client_kwargs CONF i t). simpl.
    split; [apply lookup_fresh | apply client_kwargs_no_creds].
  - by exists d.
  - by exists d.
  - by exists d.
Qed.

Lemma configure_registry_client_transport CONF s h p i t :
  registry_host CONF = Value h ->
  registry_port CONF = Value p ->
  registry_client_insecure CONF = Value i ->
  registry_client_timeout CONF = Value t ->
  transport_cached h p i t CONF (configure_registry_client CONF s).2.
Proof.
  intros Hh Hp Hi Ht.
  rewrite (configure_registry_client_ok _ _ _ _ _ _ Hh Hp Hi Ht); simpl.
  repeat split. exists (client_kwargs CONF i t). simpl.
  split; [apply lookup_fresh|]. unfold client_kwargs.
  repeat split; by simplify_map_eq.
Qed.

(** ** Invariants along a history *)

Lemma module_step_keeps_transport c s :
  is_configure_client c = false -> keeps_transport s (module_step c s).
Proof.
  destruct c; simpl; try discriminate; intros _;
    try apply get_registry_client_keeps;
    try apply configure_registry_admin_creds_keeps;
    (eapply keeps_transport_trans;
      [apply set_log_keeps | apply get_registry_client_keeps]).
Qed.

Lemma module_step_keeps_creds c s :
  is_configure_creds c = false -> keeps_creds s (module_step c s).
Proof.
  destruct c; simpl; try discriminate; intros _;
    try apply get_registry_client_keeps;
    try apply configure_registry_client_keeps;
    (eapply keeps_creds_trans;
      [apply set_log_keeps | apply get_registry_client_keeps]).
Qed.

Lemma module_step_kwargs_cached c s :
  kwargs_cached s -> kwargs_cached (module_step c s).
Proof.
  destruct (is_configure_client c) eqn:Hc.
  - destruct c; try discriminate. apply configure_registry_client_kwargs_cached.
  - apply kwargs_cached_kept. by apply module_step_keeps_transport.
Qed.

Lemma module_step_creds_cached c s :
  creds_cached s -> creds_cached (module_step c s).
Proof.
  destruct (is_configure_creds c) eqn:Hc.
  - destruct c; try discriminate. intros _.
    apply configure_registry_admin_creds_cached.
  - apply creds_cached_kept. by apply module_step_keeps_creds.
Qed.

Lemma module_run_snoc cs c s :
  module_run (cs ++ [c]) s = module_step c (module_run cs s).
Proof. unfold module_run. by rewrite fold_left_app. Qed.

Lemma module_run_kwargs_cached cs s :
  kwargs_cached s -> kwargs_cached (module_run cs s).
Proof.
  revert s. induction cs as [|c cs IH]; intros s Hs; [done|].
  apply IH. by apply module_step_kwargs_cached.
Qed.

Lemma module_run_creds_cached cs s :
  creds_cached s -> creds_cached (module_run cs s).
Proof.
  revert s. induction cs as [|c cs IH]; intros s Hs; [done|].
  apply IH. by apply module_step_creds_cached.
Qed.

Lemma module_run_keeps_transport cs s :
  existsb is_configure_client cs = false ->
  keeps_transport s (module_run cs s).
Proof.
  revert s. induction cs as [|c cs IH]; intros s Hcs; simpl in *.
  - apply keeps_transport_refl.
  - apply orb_false_iff in Hcs as [Hc Hcs].
    eapply keeps_transport_trans; [by apply module_step_keeps_transport|].
    by apply IH.
Qed.

Lemma module_run_keeps_creds cs s :
  existsb is_configure_creds cs = false ->
  keeps_creds s (module_run cs s).
Proof.
  revert s. induction cs as [|c cs IH]; intros s Hcs; simpl in *.
  - apply keeps_creds_refl.
  - apply orb_false_iff in Hcs as [Hc Hcs].
    eapply keeps_creds_trans; [by apply module_step_keeps_creds|].
    by apply IH.
Qed.

(** Once a history has a call of [configure_registry_admin_creds], the
    credentials are cached, whatever the state it started in. *)
Lemma module_run_resolved cs s :
  existsb is_configure_creds cs = true -> creds_cached (module_run cs s).
Proof.
  revert s. induction cs as [|c cs IH]; intros s Hcs; simpl in *; [done|].
  apply orb_true_iff in Hcs as [Hc | Hcs]; [|by apply IH].
  apply module_run_creds_cached.
  destruct c; try discriminate. apply configure_registry_admin_creds_cached.
Qed.

Lemma initial_kwargs_cached : kwargs_cached initial_state.
Proof. exists ∅. by split. Qed.

(** Until the first call of [configure_registry_admin_creds],
    [_CLIENT_CREDS] is [None]. *)
Lemma module_run_unresolved cs :
  existsb is_configure_creds cs = false ->
  _CLIENT_CREDS (module_run cs initial_state) = PNone.
Proof.
  intros Hcs. by destruct (module_run_keeps_creds cs initial_state Hcs) as [-> _].
Qed.

(** ** Sessions *)

Section Sessions.

Context `{WireClient W R}.

Lemma in_module_invoke (m : M state client.RegistryClient)
    (call : client.method_call) (ss : session W) :
  module ((c <- in_module m ;; invoke c call) ss).2 = (m (module ss)).2.
Proof.
  unfold bind, in_module, invoke.
  destruct (m (module ss)) as [[c|e] s']; simpl; [|done].
  by destruct (wire_exec c call (wire ss)).
Qed.

Lemma run_call_module (c : api_call) (ss : session W) :
  module (run_call c ss) = module_step c (module ss).
Proof.
  destruct c; simpl;
    try (unfold in_module;
         match goal with |- context [?m (module ss)] =>
           by destruct (m (module ss)) end);
    apply in_module_invoke.
Qed.

Lemma run_calls_module (cs : list api_call) (ss : session W) :
  module (run_calls cs ss) = module_run cs (module ss).
Proof.
  revert ss. induction cs as [|c cs IH]; intros ss; [done|].
  simpl. rewrite IH. by rewrite run_call_module.
Qed.

End Sessions.

(** ** The factory on a reachable cache *)

Lemma creds_cached_nonempty (d : pydict) (st : string) :
  d !! "strategy" = Some (PStr st) -> d ≠ ∅.
Proof. intros Hd ->. by rewrite lookup_empty in Hd. Qed.

(** After any history from import, the factory returns a handle: built on
    the cached keyword arguments and the token alone while no call has
    configured credentials, and with the cached credentials under "creds"
    afterwards. *)
Lemma get_registry_client_reachable cxt cs :
  let s := module_run cs initial_state in
  exists d,
    heap s !! _CLIENT_KWARGS s = Some d /\ d !! "creds" = None /\
    ((existsb is_configure_creds cs = false /\
      _CLIENT_CREDS s = PNone /\
      get_registry_client cxt s =
        (Return (handle_of s (<["auth_tok" := auth_tok cxt]> d)),
         set_heap (heap s ++ [<["auth_tok" := auth_tok cxt]> d]) s))
     \/
     (existsb is_configure_creds cs = true /\
      exists l c st,
        _CLIENT_CREDS s = PRef l /\ heap s !! l = Some c /\
        c !! "strategy" = Some (PStr st) /\
        get_registry_client cxt s =
          (Return (handle_of s (<["creds" := PRef l]>
                                  (<["auth_tok" := auth_tok cxt]> d))),
           set_heap (heap s ++ [<["creds" := PRef l]>
                                  (<["auth_tok" := auth_tok cxt]> d)]) s))).
Proof.
  intros s.
  destruct (module_run_kwargs_cached cs _ initial_kwargs_cached)
    as (d & Hd & Hc).
  exists d. split; [done|]. split; [done|].
  destruct (existsb is_configure_creds cs) eqn:Hcs.
  - right. split; [done|].
    destruct (module_run_resolved cs initial_state Hcs) as (l & c & st & Hl & Hlc & Hst).
    exists l, c, st. repeat split; try done.
    apply (get_registry_client_resolved cxt s d l c Hd Hl Hlc).
    by eapply creds_cached_nonempty.
  - left. split; [done|].
    pose proof (module_run_unresolved cs Hcs) as Hnone.
    split; [done|]. by apply get_registry_client_unresolved.
Qed.

(** The factory does not look at the log. *)
Lemma get_registry_client_set_log cxt r s c s' :
  get_registry_client cxt s = (Return c, s') ->
  get_registry_client cxt (set_log r s) = (Return c, set_log r s').
Proof.
  unfold get_registry_client, bind, gets, dict_copy, dict_setitem, bind,
    deref, new_dict, modify; simpl.
  destruct (heap s !! _CLIENT_KWARGS s) as [d|]; simpl; [|done].
  rewrite lookup_fresh; simpl. rewrite insert_fresh.
  destruct (_CLIENT_CREDS s) as [|b|z|str|l]; simpl.
  - fresh_steps. by intros [= <- <-].
  - destruct b; fresh_steps; by intros [= <- <-].
  - destruct (negb (z =? 0)%Z); fresh_steps; by intros [= <- <-].
  - destruct (negb (str =? "")%string); fresh_steps; by intros [= <- <-].
  - unfold bind, deref; simpl.
    destruct ((heap s ++ [<["auth_tok":=auth_tok cxt]> d]) !! l) as [x|];
      simpl; [|done].
    destruct (negb (bool_decide (x = ∅))); fresh_steps; by intros [= <- <-].
Qed.

(** ** The functions on sample inputs *)

Example lower_mixed : lower "HttpS-9" = "https-9".
Proof. reflexivity. Qed.

Example strategy_forced_by_conf :
  cached_strategy
    (configure_registry_admin_creds
       (with_auth (Some "http://ks:5000") "noauth" default_conf) ∅
       initial_state).2 = Some (PStr "keystone").
Proof. vm_compute. reflexivity. Qed.

Example strategy_forced_by_env :
  cached_strategy
    (configure_registry_admin_creds default_conf
       {["OS_AUTH_URL" := "http://ks:5000"]} initial_state).2
  = Some (PStr "keystone").
Proof. vm_compute. reflexivity. Qed.

Example strategy_default_verbatim :
  cached_strategy
    (configure_registry_admin_creds
       (with_auth None "customstrategy" default_conf) ∅ initial_state).2
  = Some (PStr "customstrategy").
Proof. vm_compute. reflexivity. Qed.

(** An empty string is not taken as an endpoint. *)
Example strategy_empty_url :
  cached_strategy
    (configure_registry_admin_creds
       (with_auth (Some "") "customstrategy" default_conf)
       {["OS_AUTH_URL" := ""]} initial_state).2
  = Some (PStr "customstrategy").
Proof. vm_compute. reflexivity. Qed.

Example end_to_end :
  (get_registry_client token_context
     (configure_registry_client secure_conf initial_state).2).1 =
  Return
    {| client.host := PStr "10.0.0.5";
       client.port := PInt 9292;
       client.metadata_encryption_key := PStr "0123456789abcdef";
       client.kwargs :=
         <["auth_tok" := PStr "tok"]>
         (<["use_ssl" := PBool true]>
         (<["key_file" := PStr "/etc/glance/key.pem"]>
         (<["cert_file" := PNone]>
         (<["ca_file" := PNone]>
         (<["insecure" := PBool true]>
         (<["timeout" := PInt 600]> ∅)))))) |}.
Proof. vm_compute. reflexivity. Qed.

Example missing_port :
  configure_registry_client (with_port (Fails IndexError) default_conf)
    initial_state =
  (Raise (BadRegistryConnectionConfiguration
            "Could not find required configuration option"),
   set_log [error_record "Could not find required configuration option"]
     initial_state).
Proof. reflexivity. Qed.

(** A read that raises something the module does not handle goes to the
    caller as it is, with nothing logged. *)
Example unhandled_read_error :
  configure_registry_client
    (with_port (Fails (OtherReadError "NoSuchOptError")) default_conf)
    initial_state =
  (Raise (ReadError (OtherReadError "NoSuchOptError")), initial_state).
Proof. reflexivity. Qed.

(** The reads after the guarded block are not guarded: a malformed timeout
    leaves the caller with oslo.config's own exception, raised after host,
    port and key were stored. *)
Example malformed_timeout :
  configure_registry_client
    (with_timeout (Fails ConfigFileValueError) default_conf) initial_state =
  (Raise (ReadError ConfigFileValueError),
   set_METADATA_ENCRYPTION_KEY PNone
     (set_CLIENT_PORT (PInt 9191)
        (set_CLIENT_HOST (PStr "0.0.0.0") initial_state))).
Proof. reflexivity. Qed.

(** The module state along a history is the module part of the session
    along it, whatever the wire client does. *)
Example module_of_session (cs : list api_call) :
  module (run_calls cs (initial_session ([] : list client.method_call))) =
  module_run cs initial_state.
Proof. apply run_calls_module. Qed.

(** * The claims *)

(** ** Credential setup *)

(** C1.  [configure_registry_admin_creds] returns for every configuration,
    environment and state, and the dictionary it caches has under "strategy"
    the string "keystone" when [CONF.auth_url] or the environment variable
    OS_AUTH_URL is set (a value that Python takes as true: not [None] and
    not the empty string), whatever [CONF.auth_strategy] is, and
    [CONF.auth_strategy] itself when neither is set. *)
Theorem configure_registry_admin_creds_strategy
    (CONF : ConfigOpts) (env : environ) (s : state) :
  exists s' l d,
    configure_registry_admin_creds CONF env s = (Return tt, s') /\
    _CLIENT_CREDS s' = PRef l /\
    heap s' !! l = Some d /\
    d !! "strategy" =
      Some (PStr (if str_truthy (auth_url CONF)
                     || str_truthy (getenv env "OS_AUTH_URL")
                  then "keystone"
                  else auth_strategy CONF)).
Proof.
  rewrite configure_registry_admin_creds_run.
  eexists _, _, _. split; [reflexivity|]. simpl.
  split; [reflexivity|]. split; [apply lookup_fresh|].
  by simplify_map_eq.
Qed.


(** ** Connection setup *)

(** C3.  When reading [registry_host] or [registry_port] raises
    [ConfigFileValueError] (a malformed value) in one configuration and
    [IndexError] (an option that cannot be found) in another,
    [configure_registry_client] raises
    [BadRegistryConnectionConfiguration] in both, after one record at error
    level has gone to the log. *)
Theorem configure_registry_client_one_error_kind
    (malformed missing : ConfigOpts) (s : state) :
  addr_read_fails malformed ConfigFileValueError ->
  addr_read_fails missing IndexError ->
  exists msg1 msg2,
    configure_registry_client malformed s =
      (Raise (BadRegistryConnectionConfiguration msg1),
       set_log (log s ++ [error_record msg1]) s) /\
    configure_registry_client missing s =
      (Raise (BadRegistryConnectionConfiguration msg2),
       set_log (log s ++ [error_record msg2]) s).
Proof.
  intros Hmal Hmis.
  destruct (configure_registry_client_bad malformed s _ Hmal) as [m1 H1];
    [by left|].
  destruct (configure_registry_client_bad missing s _ Hmis) as [m2 H2];
    [by right|].
  by exists m1, m2.
Qed.

Lemma configure_registry_client_one_error_kind_witness :
  exists msg1 msg2,
    configure_registry_client
      (with_port (Fails ConfigFileValueError) default_conf) initial_state =
      (Raise (BadRegistryConnectionConfiguration msg1),
       set_log (log initial_state ++ [error_record msg1]) initial_state) /\
    configure_registry_client
      (with_port (Fails IndexError) default_conf) initial_state =
      (Raise (BadRegistryConnectionConfiguration msg2),
       set_log (log initial_state ++ [error_record msg2]) initial_state).
Proof.
  apply configure_registry_client_one_error_kind.
  - right. exists "0.0.0.0". split; reflexivity.
  - right. exists "0.0.0.0". split; reflexivity.
Defined.

(** C4.  When [configure_registry_client] raises
    [BadRegistryConnectionConfiguration], the five module variables and
    every object of the store are as they were before the call. *)
Theorem configure_registry_client_failure_keeps_cache
    (CONF : ConfigOpts) (s s' : state) (msg : string) :
  configure_registry_client CONF s =
    (Raise (BadRegistryConnectionConfiguration msg), s') ->
  _CLIENT_HOST s' = _CLIENT_HOST s /\
  _CLIENT_PORT s' = _CLIENT_PORT s /\
  _CLIENT_KWARGS s' = _CLIENT_KWARGS s /\
  _METADATA_ENCRYPTION_KEY s' = _METADATA_ENCRYPTION_KEY s /\
  _CLIENT_CREDS s' = _CLIENT_CREDS s /\
  heap s' = heap s.
Proof.
  destruct (configure_registry_client_cases CONF s)
    as [(h&p&i&t&_&_&_&_&->) | [[m ->] | [[e ->] | (e&h&p&->)]]];
    intros Hrun; inversion Hrun; subst.
  by repeat split.
Qed.

Lemma configure_registry_client_failure_keeps_cache_witness :
  let s' := set_log [error_record "Configuration option was not valid"]
              initial_state in
  _CLIENT_HOST s' = _CLIENT_HOST initial_state /\
  _CLIENT_PORT s' = _CLIENT_PORT initial_state /\
  _CLIENT_KWARGS s' = _CLIENT_KWARGS initial_state /\
  _METADATA_ENCRYPTION_KEY s' = _METADATA_ENCRYPTION_KEY initial_state /\
  _CLIENT_CREDS s' = _CLIENT_CREDS initial_state /\
  heap s' = heap initial_state.
Proof.
  apply (configure_registry_client_failure_keeps_cache
           (with_port (Fails ConfigFileValueError) default_conf)
           initial_state _ "Configuration option was not valid").
  reflexivity.
Defined.

(** ** The factory *)

(** C6.  In every state and for every context, [get_registry_client]
    leaves the five module variables as they are, and every dictionary that
    was in the store before the call is there afterwards with the same
    items; the log is untouched. *)
Theorem get_registry_client_keeps_cache (cxt : RequestContext) (s : state) :
  let s' := (get_registry_client cxt s).2 in
  _CLIENT_KWARGS s' = _CLIENT_KWARGS s /\
  _CLIENT_CREDS s' = _CLIENT_CREDS s /\
  _CLIENT_HOST s' = _CLIENT_HOST s /\
  _CLIENT_PORT s' = _CLIENT_PORT s /\
  _METADATA_ENCRYPTION_KEY s' = _METADATA_ENCRYPTION_KEY s /\
  take (length (heap s)) (heap s') = heap s /\
  log s' = log s.
Proof.
  destruct (get_registry_client_state cxt s) as [-> | [kw ->]]; simpl.
  - repeat split. apply firstn_all.
  - repeat split. apply take_app_length.
Qed.

(** C5.  After any history of calls from import, [get_registry_client]
    returns a handle for every context, it does not raise; and when the
    history has no call of [configure_registry_admin_creds], the handle has
    no "creds" argument. *)
Theorem get_registry_client_before_creds
    (cs : list api_call) (cxt : RequestContext) :
  exists c s',
    get_registry_client cxt (module_run cs initial_state) = (Return c, s') /\
    (existsb is_configure_creds cs = false ->
     client.kwargs c !! "creds" = None).
Proof.
  destruct (get_registry_client_reachable cxt cs)
    as (d & Hd & Hc & [(Hcs & _ & Hrun) | (Hcs & l & x & st & _ & _ & _ & Hrun)]);
    eexists _, _; (split; [exact Hrun|]); intros Hno; [|congruence].
  simpl. by rewrite lookup_insert_ne.
Qed.

Lemma get_registry_client_before_creds_witness :
  exists c s',
    get_registry_client anonymous_context
      (module_run [call_configure_registry_client default_conf;
                   call_get_image_metadata token_context (PStr "img-1")]
         initial_state) = (Return c, s') /\
    client.kwargs c !! "creds" = None.
Proof.
  destruct (get_registry_client_before_creds
              [call_configure_registry_client default_conf;
               call_get_image_metadata token_context (PStr "img-1")]
              anonymous_context) as (c & s' & Hrun & Hcreds).
  exists c, s'. split; [exact Hrun | apply Hcreds; reflexivity].
Defined.

(** C9.  After any history of calls from import that has a call of
    [configure_registry_admin_creds], whatever the configuration it read,
    [_CLIENT_CREDS] refers to a non-empty dictionary with a string under
    "strategy", and the handle [get_registry_client] returns has that
    reference as its "creds" argument.  A handle without a "creds" argument
    comes only from a history with no such call. *)
Theorem creds_attached_after_configure
    (cs : list api_call) (cxt : RequestContext) :
  let s := module_run cs initial_state in
  exists c s',
    get_registry_client cxt s = (Return c, s') /\
    (existsb is_configure_creds cs = true ->
     exists l d strategy,
       _CLIENT_CREDS s = PRef l /\
       heap s !! l = Some d /\
       d ≠ ∅ /\
       d !! "strategy" = Some (PStr strategy) /\
       client.kwargs c !! "creds" = Some (PRef l)) /\
    (client.kwargs c !! "creds" = None ->
     existsb is_configure_creds cs = false).
Proof.
  intros s.
  destruct (get_registry_client_reachable cxt cs)
    as (d & Hd & Hc & [(Hcs & _ & Hrun) | (Hcs & l & x & st & Hl & Hx & Hst & Hrun)]);
    eexists _, _; (split; [exact Hrun|]); split; try congruence.
  - intros _. exists l, x, st. repeat split; try done.
    + by eapply creds_cached_nonempty.
    + simpl. by rewrite lookup_insert_eq.
  - simpl. by rewrite lookup_insert_eq.
Qed.

Lemma creds_attached_after_configure_witness :
  exists c s' l,
    get_registry_client anonymous_context
      (module_run [call_configure_registry_admin_creds default_conf ∅;
                   call_configure_registry_client default_conf]
         initial_state) = (Return c, s') /\
    client.kwargs c !! "creds" = Some (PRef l).
Proof.
  destruct (creds_attached_after_configure
              [call_configure_registry_admin_creds default_conf ∅;
               call_configure_registry_client default_conf]
              anonymous_context) as (c & s' & Hrun & Hyes & _).
  destruct (Hyes eq_refl) as (l & d & st & _ & _ & _ & _ & Hc).
  exists c, s', l. split; [exact Hrun | exact Hc].
Defined.

(** C10.  After any history of calls from import and for every context,
    [get_registry_client] returns a handle whose "auth_tok" argument is the
    context's [auth_tok], whatever that value is ([None] included). *)
Theorem get_registry_client_auth_tok
    (cs : list api_call) (cxt : RequestContext) :
  exists c s',
    get_registry_client cxt (module_run cs initial_state) = (Return c, s') /\
    client.kwargs c !! "auth_tok" = Some (auth_tok cxt).
Proof.
  destruct (get_registry_client_reachable cxt cs)
    as (d & Hd & Hc & [(Hcs & _ & Hrun) | (Hcs & l & x & st & _ & _ & _ & Hrun)]);
    eexists _, _; (split; [exact Hrun|]); simpl.
  - by rewrite lookup_insert_eq.
  - by rewrite lookup_insert_ne, lookup_insert_eq.
Qed.

(** ** Connection setup followed by the factory *)

Lemma module_run_app cs1 cs2 s :
  module_run (cs1 ++ cs2) s = module_run cs2 (module_run cs1 s).
Proof. unfold module_run. apply fold_left_app. Qed.

(** C2, as the code has it.  Take a configuration whose typed options read
    without error, a call of [configure_registry_client] with it, after any
    history from import, and then any calls other than
    [configure_registry_client].  For every context [get_registry_client]
    then returns a handle whose host and port are the configured ones and
    whose "key_file", "cert_file", "ca_file", "insecure" and "timeout"
    arguments are the configured values.  Its "use_ssl" argument is true
    exactly when the configured protocol, put in lower case, is "https":
    "https" in any mix of upper and lower case turns it on. *)
Theorem configure_then_get_transport
    (CONF : ConfigOpts) (h : string) (p : Z) (i : bool) (t : Z)
    (before after : list api_call) (cxt : RequestContext) :
  registry_host CONF = Value h ->
  registry_port CONF = Value p ->
  registry_client_insecure CONF = Value i ->
  registry_client_timeout CONF = Value t ->
  existsb is_configure_client after = false ->
  exists c s',
    get_registry_client cxt
      (module_run (before ++ call_configure_registry_client CONF :: after)
         initial_state) = (Return c, s') /\
    client.host c = PStr h /\
    client.port c = PInt p /\
    client.kwargs c !! "key_file" =
      Some (of_optional (registry_client_key_file CONF)) /\
    client.kwargs c !! "cert_file" =
      Some (of_optional (registry_client_cert_file CONF)) /\
    client.kwargs c !! "ca_file" =
      Some (of_optional (registry_client_ca_file CONF)) /\
    client.kwargs c !! "insecure" = Some (PBool i) /\
    client.kwargs c !! "timeout" = Some (PInt t) /\
    client.kwargs c !! "use_ssl" =
      Some (PBool (String.eqb (lower (registry_client_protocol CONF))
                     "https")).
Proof.
  intros Hh Hp Hi Ht Hafter.
  set (cs := before ++ call_configure_registry_client CONF :: after).
  assert (transport_cached h p i t CONF (module_run cs initial_state))
    as (Hhost & Hport & _ & d & Hd & Hssl & Hkey & Hcert & Hca & Hins & Hto).
  { subst cs. rewrite module_run_app. simpl.
    eapply transport_cached_kept;
      [by apply module_run_keeps_transport|].
    change (module_step (call_configure_registry_client CONF) ?s)
      with (configure_registry_client CONF s).2.
    by apply configure_registry_client_transport. }
  destruct (get_registry_client_reachable cxt cs)
    as (d' & Hd' & _ & [(_ & _ & Hrun) | (_ & l & x & st & _ & _ & _ & Hrun)]);
    rewrite Hd in Hd'; injection Hd' as <-;
    eexists _, _; (split; [exact Hrun|]); simpl;
    rewrite ?(lookup_insert_ne _ "creds"), ?(lookup_insert_ne _ "auth_tok")
      by done;
    by repeat split.
Qed.

Lemma configure_then_get_transport_witness :
  exists c s',
    get_registry_client token_context
      (module_run
         ([] ++ call_configure_registry_client
                  (with_protocol "https" default_conf)
             :: [call_configure_registry_admin_creds default_conf ∅])
         initial_state) = (Return c, s') /\
    client.host c = PStr "0.0.0.0" /\
    client.port c = PInt 9191 /\
    client.kwargs c !! "key_file" = Some PNone /\
    client.kwargs c !! "cert_file" = Some PNone /\
    client.kwargs c !! "ca_file" = Some PNone /\
    client.kwargs c !! "insecure" = Some (PBool false) /\
    client.kwargs c !! "timeout" = Some (PInt 600) /\
    client.kwargs c !! "use_ssl" = Some (PBool true).
Proof.
  apply (configure_then_get_transport
           (with_protocol "https" default_conf) "0.0.0.0" 9191 false 600
           [] [call_configure_registry_admin_creds default_conf ∅]
           token_context); reflexivity.
Defined.

(** C2, as stated, fails: with the protocol configured as "HTTPS", a string
    other than "https", the handle has "use_ssl" true. *)
Lemma uppercase_protocol_uses_ssl :
  let CONF := with_protocol "HTTPS" default_conf in
  registry_client_protocol CONF ≠ "https" /\
  exists c s',
    get_registry_client token_context
      (module_run [call_configure_registry_client CONF] initial_state)
      = (Return c, s') /\
    client.kwargs c !! "use_ssl" = Some (PBool true).
Proof.
  split; [discriminate|].
  eexists _, _. split.
  - vm_compute. reflexivity.
  - vm_compute. reflexivity.
Qed.

(** ** Delegation *)

Section Forwarding.

Context `{WireClient W R}.

Lemma invoke_forwards (m : M state client.RegistryClient)
    (call : client.method_call) (ss : session W)
    (c : client.RegistryClient) (s' : state) :
  m (module ss) = (Return c, s') ->
  forwards ((c <- in_module m ;; invoke c call) ss) ss c call s'.
Proof.
  intros Hm. unfold forwards, bind, in_module, invoke. rewrite Hm; simpl.
  by destruct (wire_exec c call (wire ss)).
Qed.

Lemma logged_invoke_forwards (msg : string) (a : list pyval)
    (cxt : RequestContext) (call : client.method_call) (ss : session W)
    (c : client.RegistryClient) (s' : state) :
  get_registry_client cxt (module ss) = (Return c, s') ->
  forwards ((in_module (LOG_debug msg a) ;;;
             c <- in_module (get_registry_client cxt) ;;
             invoke c call) ss)
    ss c call (set_log (log (module ss) ++ [debug_record msg a]) s').
Proof.
  intros Hm.
  apply (get_registry_client_set_log _
           (log (module ss) ++ [debug_record msg a])) in Hm.
  unfold forwards, bind, in_module, invoke, LOG_debug, modify; simpl.
  unfold debug_record in Hm. rewrite Hm; simpl.
  by destruct (wire_exec c call (wire ss)).
Qed.

(** C7.  In a session where the factory returns handle [c] for the
    context, each of the eleven delegation functions sends exactly one
    call to the wire client, on [c]: the method it is paired with in the
    source, with the function's remaining arguments in their order.  The
    outcome (result or exception) is the wire client's.  The module ends
    in the state the factory left, with one more debug record in the log
    for the three functions that log.  In particular
    [update_image_metadata cxt image_id image_meta purge_props] sends
    [update_image image_id image_meta purge_props] and nothing else. *)
Theorem delegation_forwards (ss : session W) (cxt : RequestContext)
    (c : client.RegistryClient) (s' : state)
    (filters : pydict)
    (image_id image_meta purge_props member_id member_data can_share
       : pyval) :
  get_registry_client cxt (module ss) = (Return c, s') ->
  forwards (get_images_list cxt filters ss)
    ss c (client.get_images filters) s' /\
  forwards (get_images_detail cxt filters ss)
    ss c (client.get_images_detailed filters) s' /\
  forwards (get_image_metadata cxt image_id ss)
    ss c (client.get_image image_id) s' /\
  forwards (add_image_metadata cxt image_meta ss)
    ss c (client.add_image image_meta)
    (set_log (log (module ss)
              ++ [debug_record "Adding image metadata..." []]) s') /\
  forwards (update_image_metadata cxt image_id image_meta purge_props ss)
    ss c (client.update_image image_id image_meta purge_props)
    (set_log (log (module ss)
              ++ [debug_record "Updating image metadata for image %s..."
                    [image_id]]) s') /\
  forwards (delete_image_metadata cxt image_id ss)
    ss c (client.delete_image image_id)
    (set_log (log (module ss)
              ++ [debug_record "Deleting image metadata for image %s..."
                    [image_id]]) s') /\
  forwards (get_image_members cxt image_id ss)
    ss c (client.get_image_members image_id) s' /\
  forwards (get_member_images cxt member_id ss)
    ss c (client.get_member_images member_id) s' /\
  forwards (replace_members cxt image_id member_data ss)
    ss c (client.replace_members image_id member_data) s' /\
  forwards (add_member cxt image_id member_id can_share ss)
    ss c (client.add_member image_id member_id can_share) s' /\
  forwards (delete_member cxt image_id member_id ss)
    ss c (client.delete_member image_id member_id) s'.
Proof.
  intros Hc.
  repeat split_and;
    first [ by apply invoke_forwards | by apply logged_invoke_forwards ].
Qed.

End Forwarding.

Lemma delegation_forwards_witness :
  calls (update_image_metadata token_context
           (PStr "img-1") (PRef 2) (PBool true) sample_session).2 =
    [(sample_handle,
      client.update_image (PStr "img-1") (PRef 2) (PBool true))] /\
  (update_image_metadata token_context
     (PStr "img-1") (PRef 2) (PBool true) sample_session).1 = Return 0.
Proof.
  destruct (delegation_forwards sample_session token_context sample_handle
              (get_registry_client token_context (module sample_session)).2
              ∅ (PStr "img-1") (PRef 2) (PBool true) PNone PNone PNone)
    as (_ & _ & _ & _ & (Hres & _ & Hcalls & _) & _).
  - vm_compute. reflexivity.
  - split; [exact Hcalls | exact Hres].
Defined.

(** * Further properties of the module *)

(** ** Helpers *)

Lemma prefix_take (h h' : list pydict) :
  h `prefix_of` h' -> take (length h) h' = h.
Proof. intros [k ->]. apply take_app_length. Qed.


Lemma kwargs_are_kept d s s' :
  keeps_transport s s' -> kwargs_are d s -> kwargs_are d s'.
Proof.
  intros (_&_&_&Hkw&Hpre) Hd. unfold kwargs_are. rewrite Hkw.
  by eapply prefix_lookup_Some.
Qed.

Lemma configure_registry_client_addr_fails CONF s e :
  addr_read_fails CONF e ->
  keeps_transport s (configure_registry_client CONF s).2 /\
  fst (configure_registry_client CONF s) ≠ Return tt.
Proof.
  intros [Hh | (h & Hh & Hp)];
    unfold configure_registry_client, bind, try_except, conf_get, bind;
    rewrite Hh, ?Hp; destruct e; simpl; by repeat split.
Qed.

(** ** Connection setup: the reads outside the guarded block *)

(** X1.  When host and port read well and reading
    [registry_client_insecure], or after it [registry_client_timeout],
    raises, [configure_registry_client] lets that exception through as it
    is, whichever it is: it is not turned into
    [BadRegistryConnectionConfiguration] and nothing is logged.  By then
    [_CLIENT_HOST], [_CLIENT_PORT] and [_METADATA_ENCRYPTION_KEY] hold the
    new values, while [_CLIENT_KWARGS] still refers to the old
    dictionary. *)
Theorem unguarded_read_partial_update
    (CONF : ConfigOpts) (s : state) (h : string) (p : Z) (e : read_error) :
  registry_host CONF = Value h ->
  registry_port CONF = Value p ->
  registry_client_insecure CONF = Fails e \/
  (exists i, registry_client_insecure CONF = Value i /\
             registry_client_timeout CONF = Fails e) ->
  let s' := (configure_registry_client CONF s).2 in
  configure_registry_client CONF s = (Raise (ReadError e), s') /\
  _CLIENT_HOST s' = PStr h /\
  _CLIENT_PORT s' = PInt p /\
  _METADATA_ENCRYPTION_KEY s' = of_optional (metadata_encryption_key CONF) /\
  _CLIENT_KWARGS s' = _CLIENT_KWARGS s /\
  _CLIENT_CREDS s' = _CLIENT_CREDS s /\
  heap s' = heap s /\
  log s' = log s.
Proof.
  intros Hh Hp [Hi | (i & Hi & Ht)];
    unfold configure_registry_client, bind, try_except, conf_get, bind;
    rewrite Hh, Hp, Hi, ?Ht; simpl; by repeat split.
Qed.

Lemma unguarded_read_partial_update_witness :
  let s' := (configure_registry_client
               (with_timeout (Fails ConfigFileValueError) secure_conf)
               initial_state).2 in
  configure_registry_client
    (with_timeout (Fails ConfigFileValueError) secure_conf) initial_state =
    (Raise (ReadError ConfigFileValueError), s') /\
  _CLIENT_HOST s' = PStr "10.0.0.5" /\
  _CLIENT_PORT s' = PInt 9292 /\
  _METADATA_ENCRYPTION_KEY s' = PStr "0123456789abcdef" /\
  _CLIENT_KWARGS s' = _CLIENT_KWARGS initial_state /\
  _CLIENT_CREDS s' = _CLIENT_CREDS initial_state /\
  heap s' = heap initial_state /\
  log s' = log initial_state.
Proof.
  apply (unguarded_read_partial_update
           (with_timeout (Fails ConfigFileValueError) secure_conf)
           initial_state "10.0.0.5" 9292 ConfigFileValueError).
  - reflexivity.
  - reflexivity.
  - right. exists true. split; reflexivity.
Defined.

(** X2.  When reading [registry_host] or [registry_port] raises an
    exception other than the two the module handles,
    [configure_registry_client] lets it through as it is and leaves the
    whole state, log included, as it was. *)
Theorem unhandled_addr_error_propagates
    (CONF : ConfigOpts) (s : state) (name : string) :
  addr_read_fails CONF (OtherReadError name) ->
  configure_registry_client CONF s =
    (Raise (ReadError (OtherReadError name)), s).
Proof.
  intros [Hh | (h & Hh & Hp)];
    unfold configure_registry_client, bind, try_except, conf_get, bind;
    by rewrite Hh, ?Hp.
Qed.

Lemma unhandled_addr_error_propagates_witness :
  configure_registry_client
    (with_port (Fails (OtherReadError "NoSuchOptError")) secure_conf)
    initial_state =
  (Raise (ReadError (OtherReadError "NoSuchOptError")), initial_state).
Proof.
  apply unhandled_addr_error_propagates.
  right. exists "10.0.0.5". split; reflexivity.
Defined.

(** X3.  [configure_registry_client] raises
    [BadRegistryConnectionConfiguration] in exactly two situations, and
    the message tells them apart: reading host or port raised
    [ConfigFileValueError] and the message is "Configuration option was
    not valid", or it raised [IndexError] and the message is "Could not
    find required configuration option".  The same message is what went to
    the log. *)
Theorem bad_configuration_message
    (CONF : ConfigOpts) (s s' : state) (msg : string) :
  configure_registry_client CONF s =
    (Raise (BadRegistryConnectionConfiguration msg), s') <->
  s' = set_log (log s ++ [error_record msg]) s /\
  ((addr_read_fails CONF ConfigFileValueError /\
    msg = "Configuration option was not valid") \/
   (addr_read_fails CONF IndexError /\
    msg = "Could not find required configuration option")).
Proof.
  split.
  - unfold configure_registry_client, bind, try_except, conf_get, bind,
      addr_read_fails.
    destruct (registry_host CONF) as [h|[| |n]]; simpl;
      try (intros Hrun; by inversion Hrun);
      try (intros Hrun; inversion Hrun; subst; split; [done|]; eauto; fail).
    destruct (registry_port CONF) as [p|[| |n]]; simpl;
      try (intros Hrun; by inversion Hrun);
      try (intros Hrun; inversion Hrun; subst; split; [done|]; eauto 7; fail).
    destruct (registry_client_insecure CONF); simpl; [|done].
    destruct (registry_client_timeout CONF); simpl; done.
  - intros (-> & [[Hf ->] | [Hf ->]]);
      destruct Hf as [Hh | (h & Hh & Hp)];
      unfold configure_registry_client, bind, try_except, conf_get, bind;
      by rewrite Hh, ?Hp.
Qed.

(** ** The two configuration functions do not interfere *)

(** X4.  [configure_registry_client], whether it returns or raises, never
    changes [_CLIENT_CREDS] nor any dictionary already in the store;
    [configure_registry_admin_creds] never changes [_CLIENT_HOST],
    [_CLIENT_PORT], [_METADATA_ENCRYPTION_KEY], [_CLIENT_KWARGS] nor any
    dictionary already in the store, and logs nothing. *)
Theorem configuration_calls_independent
    (CONF : ConfigOpts) (env : environ) (s : state) :
  let s1 := (configure_registry_client CONF s).2 in
  let s2 := (configure_registry_admin_creds CONF env s).2 in
  (_CLIENT_CREDS s1 = _CLIENT_CREDS s /\
   take (length (heap s)) (heap s1) = heap s) /\
  (_CLIENT_HOST s2 = _CLIENT_HOST s /\
   _CLIENT_PORT s2 = _CLIENT_PORT s /\
   _METADATA_ENCRYPTION_KEY s2 = _METADATA_ENCRYPTION_KEY s /\
   _CLIENT_KWARGS s2 = _CLIENT_KWARGS s /\
   take (length (heap s)) (heap s2) = heap s /\
   log s2 = log s).
Proof.
  intros s1 s2.
  destruct (configure_registry_client_keeps CONF s) as [Hc Hpre1].
  destruct (configure_registry_admin_creds_keeps CONF env s)
    as (Hh & Hp & Hk & Hkw & Hpre2).
  repeat split; try done; by apply prefix_take.
Qed.

(** ** The handle along a history *)

Lemma existsb_snoc {A} (f : A -> bool) (l : list A) (x : A) :
  existsb f (l ++ [x]) = existsb f l || f x.
Proof. rewrite existsb_app. simpl. by rewrite orb_false_r. Qed.

(** The handle the factory returns on a reachable cache, in one
    expression. *)
Lemma reachable_handle cxt cs d :
  let s := module_run cs initial_state in
  kwargs_are d s ->
  (get_registry_client cxt s).1 =
    Return (handle_of s
              (if existsb is_configure_creds cs
               then <["creds" := _CLIENT_CREDS s]>
                      (<["auth_tok" := auth_tok cxt]> d)
               else <["auth_tok" := auth_tok cxt]> d)).
Proof.
  intros s Hd. subst s. unfold kwargs_are in Hd.
  destruct (get_registry_client_reachable cxt cs)
    as (d' & Hd' & _ & [(-> & _ & ->) | (-> & l & x & st & -> & _ & _ & ->)]);
    rewrite Hd in Hd'; by injection Hd' as <-.
Qed.

Lemma dom_client_kwargs CONF i t :
  dom (client_kwargs CONF i t) = transport_keys.
Proof.
  unfold client_kwargs, transport_keys.
  rewrite !dom_insert_L, dom_empty_L. set_solver.
Qed.

Lemma configure_registry_client_kwargs_are CONF s h p i t :
  registry_host CONF = Value h ->
  registry_port CONF = Value p ->
  registry_client_insecure CONF = Value i ->
  registry_client_timeout CONF = Value t ->
  kwargs_are (client_kwargs CONF i t) (configure_registry_client CONF s).2.
Proof.
  intros Hh Hp Hi Ht.
  rewrite (configure_registry_client_ok _ _ _ _ _ _ Hh Hp Hi Ht).
  apply lookup_fresh.
Qed.

(** X5.  A call of [configure_registry_client] that raises at the read of
    host or port does not disturb an earlier successful one: for a
    history with a successful call on [CONF], directly followed by a call
    on [bad] whose host or port read raises (any exception), and then by
    any calls other than [configure_registry_client], the factory returns a
    handle with the host, the port and the six transport keywords of
    [CONF]. *)
Theorem failed_reconfiguration_keeps_transport
    (CONF bad : ConfigOpts) (e : read_error)
    (h : string) (p : Z) (i : bool) (t : Z)
    (before after : list api_call) (cxt : RequestContext) :
  registry_host CONF = Value h ->
  registry_port CONF = Value p ->
  registry_client_insecure CONF = Value i ->
  registry_client_timeout CONF = Value t ->
  addr_read_fails bad e ->
  existsb is_configure_client after = false ->
  exists c s',
    get_registry_client cxt
      (module_run (before ++ call_configure_registry_client CONF
                          :: call_configure_registry_client bad :: after)
         initial_state) = (Return c, s') /\
    client.host c = PStr h /\
    client.port c = PInt p /\
    client.kwargs c !! "use_ssl" =
      Some (PBool (String.eqb (lower (registry_client_protocol CONF))
                     "https")) /\
    client.kwargs c !! "key_file" =
      Some (of_optional (registry_client_key_file CONF)) /\
    client.kwargs c !! "cert_file" =
      Some (of_optional (registry_client_cert_file CONF)) /\
    client.kwargs c !! "ca_file" =
      Some (of_optional (registry_client_ca_file CONF)) /\
    client.kwargs c !! "insecure" = Some (PBool i) /\
    client.kwargs c !! "timeout" = Some (PInt t).
Proof.
  intros Hh Hp Hi Ht Hbad Hafter.
  set (cs := before ++ call_configure_registry_client CONF
                    :: call_configure_registry_client bad :: after).
  assert (transport_cached h p i t CONF (module_run cs initial_state))
    as (Hhost & Hport & _ & d & Hd & Hssl & Hkey & Hcert & Hca & Hins & Hto).
  { subst cs. rewrite module_run_app. simpl.
    eapply transport_cached_kept;
      [by apply module_run_keeps_transport|].
    eapply transport_cached_kept;
      [by apply (configure_registry_client_addr_fails bad _ e)|].
    change (module_step (call_configure_registry_client CONF) ?s)
      with (configure_registry_client CONF s).2.
    by apply configure_registry_client_transport. }
  destruct (get_registry_client_reachable cxt cs)
    as (d' & Hd' & _ & [(_ & _ & Hrun) | (_ & l & x & st & _ & _ & _ & Hrun)]);
    rewrite Hd in Hd'; injection Hd' as <-;
    eexists _, _; (split; [exact Hrun|]); simpl;
    rewrite ?(lookup_insert_ne _ "creds"), ?(lookup_insert_ne _ "auth_tok")
      by done;
    by repeat split.
Qed.

Lemma failed_reconfiguration_keeps_transport_witness :
  exists c s',
    get_registry_client token_context
      (module_run ([] ++ call_configure_registry_client secure_conf
                      :: call_configure_registry_client
                           (with_port (Fails IndexError) default_conf)
                      :: [call_get_image_members token_context (PStr "i")])
         initial_state) = (Return c, s') /\
    client.host c = PStr "10.0.0.5" /\
    client.port c = PInt 9292 /\
    client.kwargs c !! "use_ssl" = Some (PBool true) /\
    client.kwargs c !! "key_file" = Some (PStr "/etc/glance/key.pem") /\
    client.kwargs c !! "cert_file" = Some PNone /\
    client.kwargs c !! "ca_file" = Some PNone /\
    client.kwargs c !! "insecure" = Some (PBool true) /\
    client.kwargs c !! "timeout" = Some (PInt 600).
Proof.
  apply (failed_reconfiguration_keeps_transport
           secure_conf (with_port (Fails IndexError) default_conf) IndexError
           "10.0.0.5" 9292 true 600 []
           [call_get_image_members token_context (PStr "i")] token_context);
    try reflexivity.
  right. exists "0.0.0.0". split; reflexivity.
Defined.

(** X6.  The factory does not require the connection to be configured:
    after any history without a call of [configure_registry_client] it
    returns a handle whose host, port and encryption key are [None] and
    whose keywords are "auth_tok" alone, with "creds" when credentials have
    been configured; none of the transport keywords is there. *)
Theorem handle_before_connection_setup
    (cs : list api_call) (cxt : RequestContext) :
  existsb is_configure_client cs = false ->
  exists c s',
    get_registry_client cxt (module_run cs initial_state) = (Return c, s') /\
    client.host c = PNone /\
    client.port c = PNone /\
    client.metadata_encryption_key c = PNone /\
    dom (client.kwargs c) =
      {["auth_tok"]} ∪
      (if existsb is_configure_creds cs then {["creds"]} else ∅).
Proof.
  intros Hcs.
  destruct (module_run_keeps_transport cs initial_state Hcs)
    as (Hh & Hp & Hk & Hkw & Hpre).
  assert (kwargs_are ∅ (module_run cs initial_state)) as Hd.
  { eapply kwargs_are_kept; [by apply module_run_keeps_transport | done]. }
  pose proof (reachable_handle cxt cs ∅ Hd) as Hc.
  destruct (get_registry_client cxt (module_run cs initial_state))
    as [r s'] eqn:Hrun.
  simpl in Hc. subst r. eexists _, s'. split; [reflexivity|].
  simpl. rewrite Hh, Hp, Hk. repeat split.
  destruct (existsb is_configure_creds cs);
    rewrite !dom_insert_L, dom_empty_L; set_solver.
Qed.

Lemma handle_before_connection_setup_witness :
  exists c s',
    get_registry_client token_context
      (module_run [call_configure_registry_admin_creds default_conf ∅]
         initial_state) = (Return c, s') /\
    client.host c = PNone /\
    client.port c = PNone /\
    client.metadata_encryption_key c = PNone /\
    dom (client.kwargs c) = {["auth_tok"]} ∪ {["creds"]}.
Proof.
  apply (handle_before_connection_setup
           [call_configure_registry_admin_creds default_conf ∅]
           token_context).
  reflexivity.
Defined.

(** X7.  After a successful [configure_registry_client] and any later
    calls other than [configure_registry_client], the handle has exactly
    the six transport keywords and "auth_tok", and "creds" exactly when
    some call of the history configured credentials; there is no other
    keyword. *)
Theorem handle_keywords
    (CONF : ConfigOpts) (h : string) (p : Z) (i : bool) (t : Z)
    (before after : list api_call) (cxt : RequestContext) :
  registry_host CONF = Value h ->
  registry_port CONF = Value p ->
  registry_client_insecure CONF = Value i ->
  registry_client_timeout CONF = Value t ->
  existsb is_configure_client after = false ->
  let cs := before ++ call_configure_registry_client CONF :: after in
  exists c s',
    get_registry_client cxt (module_run cs initial_state) = (Return c, s') /\
    dom (client.kwargs c) =
      transport_keys ∪ {["auth_tok"]} ∪
      (if existsb is_configure_creds cs then {["creds"]} else ∅).
Proof.
  intros Hh Hp Hi Ht Hafter cs.
  assert (kwargs_are (client_kwargs CONF i t) (module_run cs initial_state))
    as Hd.
  { subst cs. rewrite module_run_app. simpl.
    eapply kwargs_are_kept; [by apply module_run_keeps_transport|].
    change (module_step (call_configure_registry_client CONF) ?s)
      with (configure_registry_client CONF s).2.
    by apply configure_registry_client_kwargs_are with h p. }
  pose proof (reachable_handle cxt cs _ Hd) as Hc.
  destruct (get_registry_client cxt (module_run cs initial_state))
    as [r s'] eqn:Hrun.
  simpl in Hc. subst r. eexists _, s'. split; [reflexivity|]. simpl.
  destruct (existsb is_configure_creds cs);
    rewrite !dom_insert_L, dom_client_kwargs; set_solver.
Qed.

Lemma handle_keywords_witness :
  exists c s',
    get_registry_client token_context
      (module_run ([] ++ call_configure_registry_client secure_conf :: [])
         initial_state) = (Return c, s') /\
    dom (client.kwargs c) = transport_keys ∪ {["auth_tok"]} ∪ ∅.
Proof.
  apply (handle_keywords secure_conf "10.0.0.5" 9292 true 600 [] []
           token_context); reflexivity.
Defined.

(** X8.  Handles are not cached, yet building one leaves no trace in the
    next: on any reachable cache, the handle built for a context after a
    factory call for any other context is the handle that would have been
    built without that call. *)
Theorem repeated_builds_agree
    (cs : list api_call) (cxt cxt' : RequestContext) :
  let s := module_run cs initial_state in
  (get_registry_client cxt (get_registry_client cxt' s).2).1 =
  (get_registry_client cxt s).1.
Proof.
  intros s. subst s.
  destruct (module_run_kwargs_cached cs _ initial_kwargs_cached)
    as (d & Hd & _).
  rewrite (reachable_handle cxt cs d Hd).
  change (get_registry_client cxt' (module_run cs initial_state)).2
    with (module_step (call_get_registry_client cxt')
            (module_run cs initial_state)).
  rewrite <- module_run_snoc.
  destruct (get_registry_client_keeps cxt' (module_run cs initial_state))
    as (Ht & [Hcreds _] & _).
  assert (kwargs_are d
            (module_run (cs ++ [call_get_registry_client cxt']) initial_state))
    as Hd2.
  { rewrite module_run_snoc. by eapply kwargs_are_kept. }
  rewrite (reachable_handle cxt _ d Hd2).
  rewrite existsb_snoc, orb_false_r, module_run_snoc. simpl.
  destruct Ht as (Hh & Hp & Hk & _).
  unfold handle_of. by rewrite Hh, Hp, Hk, Hcreds.
Qed.

(** ** Requests and the cache *)

Section Requests.

Context `{WireClient W R}.


End Requests.


(** ** Credentials *)

(** X11.  Configuring credentials again makes a new dictionary and leaves
    the old one as it is: a handle built before the second call and a
    handle built after it refer to different dictionaries, and the one the
    first handle refers to still has the items it had. *)
Theorem reconfigured_creds_are_a_new_object
    (cs : list api_call) (CONF : ConfigOpts) (env : environ)
    (cxt : RequestContext) :
  existsb is_configure_creds cs = true ->
  let s := module_run cs initial_state in
  let s2 := (configure_registry_admin_creds CONF env s).2 in
  exists c1 c2 l1 l2 d1,
    (get_registry_client cxt s).1 = Return c1 /\
    (get_registry_client cxt s2).1 = Return c2 /\
    client.kwargs c1 !! "creds" = Some (PRef l1) /\
    client.kwargs c2 !! "creds" = Some (PRef l2) /\
    l1 ≠ l2 /\
    heap s !! l1 = Some d1 /\
    heap s2 !! l1 = Some d1.
Proof.
  intros Hcs s s2. subst s s2.
  destruct (module_run_kwargs_cached cs _ initial_kwargs_cached)
    as (d & Hd & _).
  destruct (module_run_resolved cs initial_state Hcs)
    as (l1 & d1 & st & Hl1 & Hd1 & _).
  pose proof (reachable_handle cxt cs d Hd) as Hc1.
  rewrite Hcs, Hl1 in Hc1.
  change (configure_registry_admin_creds CONF env
            (module_run cs initial_state)).2
    with (module_step (call_configure_registry_admin_creds CONF env)
            (module_run cs initial_state)).
  rewrite <- module_run_snoc.
  assert (kwargs_are d
            (module_run (cs ++ [call_configure_registry_admin_creds CONF env])
               initial_state)) as Hd2.
  { rewrite module_run_snoc. eapply kwargs_are_kept; [|exact Hd].
    apply configure_registry_admin_creds_keeps. }
  pose proof (reachable_handle cxt _ d Hd2) as Hc2.
  rewrite existsb_snoc, Hcs in Hc2. simpl in Hc2.
  eexists _, _, l1, (length (heap (module_run cs initial_state))), d1.
  split; [exact Hc1|]. split; [exact Hc2|]. simpl.
  rewrite module_run_snoc. simpl.
  split; [by rewrite lookup_insert_eq|].
  split; [by rewrite lookup_insert_eq|].
  split; [apply lookup_lt_Some in Hd1; lia|].
  split; [done | by apply lookup_extend].
Qed.

Lemma reconfigured_creds_are_a_new_object_witness :
  let s := module_run [call_configure_registry_admin_creds default_conf ∅]
             initial_state in
  let s2 := (configure_registry_admin_creds
               (with_auth (Some "http://ks:5000") "noauth" default_conf) ∅
               s).2 in
  exists c1 c2 l1 l2 d1,
    (get_registry_client token_context s).1 = Return c1 /\
    (get_registry_client token_context s2).1 = Return c2 /\
    client.kwargs c1 !! "creds" = Some (PRef l1) /\
    client.kwargs c2 !! "creds" = Some (PRef l2) /\
    l1 ≠ l2 /\
    heap s !! l1 = Some d1 /\
    heap s2 !! l1 = Some d1.
Proof.
  apply (reconfigured_creds_are_a_new_object
           [call_configure_registry_admin_creds default_conf ∅]
           (with_auth (Some "http://ks:5000") "noauth" default_conf) ∅
           token_context).
  reflexivity.
Defined.

(** X12.  The environment variable only decides the strategy; its value is
    not stored.  With no [auth_url] in the configuration and a non-empty
    OS_AUTH_URL in the environment, the cached credentials have strategy
    "keystone" and [None] under "auth_url". *)
Theorem env_endpoint_is_not_stored
    (CONF : ConfigOpts) (env : environ) (s : state) (url : string) :
  auth_url CONF = None ->
  getenv env "OS_AUTH_URL" = Some url ->
  url ≠ "" ->
  exists s' l d,
    configure_registry_admin_creds CONF env s = (Return tt, s') /\
    _CLIENT_CREDS s' = PRef l /\
    heap s' !! l = Some d /\
    d !! "strategy" = Some (PStr "keystone") /\
    d !! "auth_url" = Some PNone.
Proof.
  intros Hurl Henv Hne.
  rewrite configure_registry_admin_creds_run.
  eexists _, _, _. split; [reflexivity|]. simpl.
  split; [reflexivity|]. split; [apply lookup_fresh|].
  rewrite Hurl, Henv. simpl.
  apply String.eqb_neq in Hne. rewrite Hne. simpl.
  split; by simplify_map_eq.
Qed.

Lemma env_endpoint_is_not_stored_witness :
  exists s' l d,
    configure_registry_admin_creds default_conf
      {["OS_AUTH_URL" := "http://ks:5000"]} initial_state = (Return tt, s') /\
    _CLIENT_CREDS s' = PRef l /\
    heap s' !! l = Some d /\
    d !! "strategy" = Some (PStr "keystone") /\
    d !! "auth_url" = Some PNone.
Proof.
  apply (env_endpoint_is_not_stored default_conf
           {["OS_AUTH_URL" := "http://ks:5000"]} initial_state
           "http://ks:5000").
  - reflexivity.
  - vm_compute. reflexivity.
  - discriminate.
Defined.

(** ** The protocol test *)

Ltac ascii_lower_cases a :=
  split;
  [ destruct a as [[] [] [] [] [] [] [] []]; vm_compute; intros Heq;
    first [ discriminate Heq | by left | by right ]
  | by intros [-> | ->] ].

Lemma ascii_lower_h a : ascii_lower a = "h"%char <-> either_case "h" "H" a.
Proof. ascii_lower_cases a. Qed.

Lemma ascii_lower_t a : ascii_lower a = "t"%char <-> either_case "t" "T" a.
Proof. ascii_lower_cases a. Qed.

Lemma ascii_lower_p a : ascii_lower a = "p"%char <-> either_case "p" "P" a.
Proof. ascii_lower_cases a. Qed.

Lemma ascii_lower_s a : ascii_lower a = "s"%char <-> either_case "s" "S" a.
Proof. ascii_lower_cases a. Qed.

Lemma lower_cons a r x y :
  lower (String a r) = String x y <-> ascii_lower a = x /\ lower r = y.
Proof.
  simpl. split; [by intros [= -> ->] | by intros [-> ->]].
Qed.

Lemma lower_nil r : lower r = "" <-> r = "".
Proof. by destruct r. Qed.

Lemma lower_is_https (p : string) :
  lower p = "https" <->
  exists a b c d e,
    p = String a (String b (String c (String d (String e "")))) /\
    either_case "h" "H" a /\ either_case "t" "T" b /\
    either_case "t" "T" c /\ either_case "p" "P" d /\
    either_case "s" "S" e.
Proof.
  split.
  - destruct p as [|a [|b [|c [|d [|e r]]]]]; try discriminate.
    rewrite !lower_cons, lower_nil.
    rewrite ascii_lower_h, !ascii_lower_t, ascii_lower_p, ascii_lower_s.
    intros (?&?&?&?&?&->). by exists a, b, c, d, e.
  - intros (a & b & c & d & e & -> & Ha & Hb & Hc & Hd & He).
    rewrite !lower_cons, lower_nil.
    rewrite ascii_lower_h, !ascii_lower_t, ascii_lower_p, ascii_lower_s.
    by repeat split.
Qed.

(** X9.  After a successful [configure_registry_client] the cached
    "use_ssl" is a boolean, and it is true exactly for the thirty-two
    spellings of "https": five characters, each the letter in lower or in
    upper case.  A protocol with anything before or after them, a space
    included, gives false. *)
Theorem use_ssl_spellings
    (CONF : ConfigOpts) (s : state) (h : string) (p : Z) (i : bool) (t : Z) :
  registry_host CONF = Value h ->
  registry_port CONF = Value p ->
  registry_client_insecure CONF = Value i ->
  registry_client_timeout CONF = Value t ->
  let s' := (configure_registry_client CONF s).2 in
  exists d b,
    heap s' !! _CLIENT_KWARGS s' = Some d /\
    d !! "use_ssl" = Some (PBool b) /\
    (b = true <->
     exists c1 c2 c3 c4 c5,
       registry_client_protocol CONF =
         String c1 (String c2 (String c3 (String c4 (String c5 "")))) /\
       either_case "h" "H" c1 /\ either_case "t" "T" c2 /\
       either_case "t" "T" c3 /\ either_case "p" "P" c4 /\
       either_case "s" "S" c5).
Proof.
  intros Hh Hp Hi Ht s'. subst s'.
  rewrite (configure_registry_client_ok _ _ _ _ _ _ Hh Hp Hi Ht). simpl.
  eexists _, _. split; [apply lookup_fresh|].
  split; [unfold client_kwargs; by simplify_map_eq|].
  rewrite <- lower_is_https. apply String.eqb_eq.
Qed.

Lemma use_ssl_spellings_witness :
  let s' := (configure_registry_client (with_protocol "hTTps" default_conf)
               initial_state).2 in
  exists d b,
    heap s' !! _CLIENT_KWARGS s' = Some d /\
    d !! "use_ssl" = Some (PBool b) /\
    (b = true <->
     exists c1 c2 c3 c4 c5,
       "hTTps" =
         String c1 (String c2 (String c3 (String c4 (String c5 "")))) /\
       either_case "h" "H" c1 /\ either_case "t" "T" c2 /\
       either_case "t" "T" c3 /\ either_case "p" "P" c4 /\
       either_case "s" "S" c5).
Proof.
  apply (use_ssl_spellings (with_protocol "hTTps" default_conf)
           initial_state "0.0.0.0" 9191 false 600); reflexivity.
Defined.

Lemma bad_message_cases CONF s s' msg :
  configure_registry_client CONF s =
    (Raise (BadRegistryConnectionConfiguration msg), s') ->
  msg = "Configuration option was not valid" \/
  msg = "Could not find required configuration option".
Proof.
  unfold configure_registry_client, bind, try_except, conf_get, bind.
  destruct (registry_host CONF) as [h|[| |n]]; simpl;
    try (intros Hrun; inversion Hrun; auto; fail).
  destruct (registry_port CONF) as [p|[| |n]]; simpl;
    try (intros Hrun; inversion Hrun; auto; fail).
  destruct (registry_client_insecure CONF); simpl; [|done].
  destruct (registry_client_timeout CONF); simpl; done.
Qed.

(** ** The log *)

Lemma module_step_log c s :
  log (module_step c s) = log s \/
  exists r, module_log_record r /\ log (module_step c s) = log s ++ [r].
Proof.
  destruct c; simpl;
    try (left; apply get_registry_client_keeps);
    try (right;
         match goal with
         | |- context [get_registry_client ?cxt (set_log (log s ++ [?r]) s)] =>
             exists r; split;
             [ unfold module_log_record, debug_record; eauto 8
             | apply (get_registry_client_keeps cxt
                        (set_log (log s ++ [r]) s)) ]
         end).
  - destruct (configure_registry_client_cases CONF s)
      as [(h&p&i&t&_&_&_&_&->) | [[msg Hrun] | [[e ->] | (e&h&p&->)]]];
      simpl; auto.
    right. exists (error_record msg).
    pose proof Hrun as Hmsg.
    apply bad_message_cases in Hmsg.
    rewrite Hrun. simpl. split; [|done].
    unfold module_log_record. destruct Hmsg as [-> | ->]; auto.
  - by left.
Qed.

(** X13.  Along any history from import the log holds nothing but the
    module's five messages, at most one record per call: the two error
    messages without arguments and the three debug messages, whose only
    argument is an image id.  Neither the token, the credentials nor the
    encryption key is ever logged. *)
Theorem log_holds_only_module_records (cs : list api_call) :
  Forall module_log_record (log (module_run cs initial_state)) /\
  length (log (module_run cs initial_state)) <= length cs.
Proof.
  induction cs as [|c cs [IH1 IH2]] using rev_ind.
  - split; [constructor | done].
  - rewrite module_run_snoc, length_app. simpl.
    destruct (module_step_log c (module_run cs initial_state))
      as [-> | (r & Hr & ->)].
    + split; [done | lia].
    + split.
      * apply Forall_app. split; [done | by constructor].
      * rewrite length_app. simpl. lia.
Qed.

(** ** The calls that reach the wire client *)

Lemma reachable_returns cxt cs :
  exists c s',
    get_registry_client cxt (module_run cs initial_state) = (Return c, s').
Proof.
  destruct (get_registry_client_reachable cxt cs)
    as (d & _ & _ & [(_ & _ & Hrun) | (_ & l & x & st & _ & _ & _ & Hrun)]);
    eauto.
Qed.

Section Trace.

Context `{WireClient W R}.

Lemma in_module_calls {A} (m : M state A) (ss : session W) :
  calls (in_module m ss).2 = calls ss.
Proof. unfold in_module. by destruct (m (module ss)). Qed.

Lemma run_calls_snoc (cs : list api_call) (c : api_call) (ss : session W) :
  run_calls (cs ++ [c]) ss = run_call c (run_calls cs ss).
Proof. unfold run_calls. by rewrite fold_left_app. Qed.

Lemma run_call_trace (c : api_call) (ss : session W) :
  (forall cxt, exists h s',
     get_registry_client cxt (module ss) = (Return h, s')) ->
  map snd (calls (run_call c ss)) =
  map snd (calls ss) ++ from_option (fun m => [m]) [] (wire_method_of c).
Proof.
  intros Hget.
  destruct c as [CONF|CONF env|cxt|cxt k|cxt k|cxt i|cxt m|cxt i m p|cxt i
                |cxt i|cxt m|cxt i d|cxt i m sh|cxt i m]; simpl;
    try (rewrite ?in_module_calls; by rewrite app_nil_r);
    destruct (Hget cxt) as (h & s' & Hrun);
    match goal with
    | |- context [client.add_image] =>
        destruct (logged_invoke_forwards "Adding image metadata..." []
                    cxt (client.add_image m) ss h s' Hrun)
          as (_ & _ & Hc & _)
    | |- context [client.update_image] =>
        destruct (logged_invoke_forwards
                    "Updating image metadata for image %s..." [i]
                    cxt (client.update_image i m p) ss h s' Hrun)
          as (_ & _ & Hc & _)
    | |- context [client.delete_image] =>
        destruct (logged_invoke_forwards
                    "Deleting image metadata for image %s..." [i]
                    cxt (client.delete_image i) ss h s' Hrun)
          as (_ & _ & Hc & _)
    | |- _ = _ ++ [?call] =>
        destruct (invoke_forwards (get_registry_client cxt) call ss h s' Hrun)
          as (_ & _ & Hc & _)
    end;
    (etrans; [exact (f_equal (map snd) Hc) | by rewrite map_app]).
Qed.

(** X14.  For any wire client and any history from import, the calls the
    wire client has received are, in order, one per delegation call of the
    history: the method the function is paired with, on the function's
    arguments.  The configuration functions and the factory send nothing,
    and a wire call that raised neither repeats nor suppresses a call. *)
Theorem wire_calls_follow_history (w : W) (cs : list api_call) :
  map snd (calls (run_calls cs (initial_session w))) =
  omap wire_method_of cs.
Proof.
  induction cs as [|c cs IH] using rev_ind; [done|].
  rewrite run_calls_snoc, omap_app, run_call_trace, IH.
  - f_equal; simpl; by destruct (wire_method_of c).
  - intros cxt. rewrite run_calls_module. apply reachable_returns.
Qed.

End Trace.
